(** * Irrigation check: the two AppDaemon apps and their verification

    A shallow embedding of

    - [src/apps/irrigation_check/irrigation_check.py] (module [Apps]): the
      app that re-checks every minute until the water-usage sensor has
      reported after the irrigation finished;
    - [src/irrigation_check.py] (module [Batch]): the app that checks once,
      a configured number of minutes after the finish event.

    Modelling conventions.

    - Python [float]s are exact rationals ([Q]); "equal" on them is [==].
      What the binary representation adds is outside the model: the rounding
      of literals, differences and quotients to the nearest double, the way
      [round] breaks ties on the stored double rather than on the decimal,
      overflow, [nan] and the infinities (so [float] of the strings [inf]
      and [nan] has no value here).
    - Python [int]s are unbounded ([Z]). [int] and [float] of a string read
      the literals of the language: blanks around it, a sign, digits with
      single underscores between them, and for [float] a fraction and an
      exponent. Digits other than 0 to 9 and the interpreter's limit on the
      length of an integer literal are outside the model.
    - The values of an event payload are those of [PyVal]: [None],
      integers, floats, strings, datetimes and dicts with string keys.
    - A [datetime] is a number of microseconds on one time line ([Z]),
      whether naive or aware; a [timedelta] is a number of microseconds.
      The sensor's [last_reported] attribute, when it is an ISO timestamp,
      is taken to carry a UTC offset, as the finish time does, so that the
      two can be compared. [self.config['time_zone']] is taken to be a time
      zone that [datetime.now] accepts.
    - A handler is a computation in [M]: it either returns or raises a Python
      exception, and in both cases leaves the list of the effects it had on
      its host (log lines, timers, queries, service calls), in program order.
      Neither app has a [try], so [M] has no handler for exceptions.
    - Values read from the host (clock, sensor attribute, history) come in a
      record [World] passed to the handler; [Host] gives the world at each
      instant, and [run_event] follows the timers a handler armed with
      [run_in], each firing exactly when due. *)

From Stdlib Require Import ZArith QArith Qround String Ascii List Lia Lqa Bool.
From stdpp Require Import gmap strings.
Import ListNotations.

Set Warnings "-register-all".
Local Open Scope Z_scope.

(** ** Python values, exceptions and conversions *)

Definition Time := Z.
Definition TimeDelta := Z.

Inductive PyExc :=
| KeyError (key : string)
| TypeError
| ValueError
| IndexError
| ZeroDivisionError
| AssertionError.

(** The values an event payload ([dict[str, Any]]) can hold. *)
Inductive PyVal :=
| VNone
| VInt (z : Z)
| VFloat (q : Q)
| VStr (s : string)
| VTime (t : Time)
| VDict (d : gmap string PyVal).

Definition Qltb (a b : Q) : bool := negb (Qle_bool b a).

(** [int(x)] of a float: truncation toward zero. *)
Definition trunc (q : Q) : Z := Z.quot (Qnum q) (Z.pos (Qden q)).

(** Round half to even, the rounding of [round] and of [timedelta]. *)
Definition round_half_even (q : Q) : Z :=
  let f := Qfloor q in
  let r := (q - inject_Z f)%Q in
  match (r ?= 1 # 2)%Q with
  | Lt => f
  | Gt => f + 1
  | Eq => if Z.even f then f else f + 1
  end.

(** [round(x, 1)]. *)
Definition round1 (q : Q) : Q := (inject_Z (round_half_even (q * 10)) / 10)%Q.

(** Numeric literals, as [int(s)] and [float(s)] read them from a string.
    Blanks around the literal are stripped; a run of digits may hold single
    underscores between digits; [float] also reads a fraction and an
    exponent. A character is its code point (Latin-1). *)
Definition is_space (c : ascii) : bool :=
  let n := Z.of_N (N_of_ascii c) in
  ((9 <=? n) && (n <=? 13)) || (n =? 32) || (n =? 133) || (n =? 160).

Fixpoint lstrip (s : list ascii) : list ascii :=
  match s with
  | c :: r => if is_space c then lstrip r else s
  | [] => []
  end.

Definition strip (s : list ascii) : list ascii :=
  rev (lstrip (rev (lstrip s))).

Definition digit_of (c : ascii) : option Z :=
  let n := Z.of_N (N_of_ascii c) in
  if (48 <=? n) && (n <=? 57) then Some (n - 48) else None.

(** The longest run of digits at the head of [s], its value added to [acc]
    and the number of its digits to [n]. *)
Fixpoint read_digits (s : list ascii) (acc : Z) (n : nat)
  : Z * nat * list ascii :=
  match s with
  | c :: r =>
      match digit_of c with
      | Some d => read_digits r (10 * acc + d) (S n)
      | None =>
          match r with
          | c' :: r' =>
              match digit_of c', n with
              | Some d, S _ =>
                  if Ascii.eqb c "_"
                  then read_digits r' (10 * acc + d) (S n)
                  else (acc, n, s)
              | _, _ => (acc, n, s)
              end
          | [] => (acc, n, s)
          end
      end
  | [] => (acc, n, [])
  end.

Definition read_sign (s : list ascii) : Z * list ascii :=
  match s with
  | "-"%char :: r => (-1, r)
  | "+"%char :: r => (1, r)
  | _ => (1, s)
  end.

Definition parse_int (s : string) : option Z :=
  let '(sg, r) := read_sign (strip (list_ascii_of_string s)) in
  match read_digits r 0 O with
  | (i, S _, []) => Some (sg * i)
  | _ => None
  end.

(** The exponent of a float literal: nothing, or [e] or [E], an optional
    sign and digits. *)
Definition read_exponent (s : list ascii) : option Z :=
  match s with
  | [] => Some 0
  | c :: r =>
      if Ascii.eqb c "e" || Ascii.eqb c "E" then
        let '(sg, r') := read_sign r in
        match read_digits r' 0 O with
        | (e, S _, []) => Some (sg * e)
        | _ => None
        end
      else None
  end.

(** [m * 10 ^ e], in lowest terms. *)
Definition scale10 (m e : Z) : Q :=
  if 0 <=? e then inject_Z (m * 10 ^ e)
  else Qred (Qmake m (Z.to_pos (10 ^ (- e)))).

Definition parse_float (s : string) : option Q :=
  let '(sg, r) := read_sign (strip (list_ascii_of_string s)) in
  let '(i, ni, r1) := read_digits r 0 O in
  let '(m, nf, r2) :=
    match r1 with
    | c :: r' => if Ascii.eqb c "." then read_digits r' i O else (i, O, r1)
    | [] => (i, O, r1)
    end in
  match (ni + nf)%nat with
  | O => None
  | S _ =>
      match read_exponent r2 with
      | Some e => Some (scale10 (sg * m) (e - Z.of_nat nf))
      | None => None
      end
  end.

(** ** Effects and the handler monad *)

Inductive Callback := CheckValve | CheckUsage.

(** The text of a notification, with the values formatted into it. *)
Inductive Message :=
| ExpectedUsage (usage_liters : Q) (minutes : Q)
| UsageMismatch (minutes : Q) (usage_liters : Q).

Inductive LogLine :=
| ShortRun (minutes : Q)
| BeginningChecks
| RunningCheckIn (delay_minutes : Z)
| NotYetUpdated (reported finish_time : Time)
| TooOld (finish_time : Time)
| LateReport (minutes : Q)
| FoundLpm (lpm minutes latency_minutes : Q)
| ShortRunMinutes (duration : Z)
| InfoLine (m : Message)
| AlertLine (m : Message)
| ValveOn (entity : option string).

Inductive Effect :=
| ListenEvent (event : string)
| Log (l : LogLine)
| Error (l : LogLine)
| RunIn (cb : Callback) (delay : Z) (data : option (gmap string PyVal))
| GetState (entity : option string) (attribute : option string)
| GetHistory (entity : string) (start_time : Time)
| CallService (service : string) (title : string) (message : Message).

Definition Trace := list Effect.

Definition M (A : Type) : Type := Trace * (PyExc + A).

Definition ret {A} (a : A) : M A := ([], inr a).
Definition raise {A} (e : PyExc) : M A := ([], inl e).
Definition emit (e : Effect) : M unit := ([e], inr tt).
Definition bind {A B} (m : M A) (f : A -> M B) : M B :=
  match m with
  | (tr, inl e) => (tr, inl e)
  | (tr, inr a) => let '(tr', r) := f a in (tr ++ tr', r)
  end.

Declare Scope py_scope.
Delimit Scope py_scope with py.
Notation "x <- c1 ;; c2" := (bind c1 (fun x => c2))
  (at level 100, c1 at next level, right associativity) : py_scope.
Notation "c1 ;; c2" := (bind c1 (fun _ => c2))
  (at level 100, right associativity) : py_scope.
Local Open Scope py_scope.

Definition lift_opt {A} (e : PyExc) (o : option A) : M A :=
  match o with Some a => ret a | None => raise e end.

(** [d[k]] on a dict. *)
Definition getitem (d : gmap string PyVal) (k : string) : M PyVal :=
  lift_opt (KeyError k) (d !! k).

(** [v[k]] on any value: only a dict can be indexed by a string. *)
Definition subscript (v : PyVal) (k : string) : M PyVal :=
  match v with
  | VDict d => getitem d k
  | _ => raise TypeError
  end.

(** [int(v)]. *)
Definition py_int (v : PyVal) : M Z :=
  match v with
  | VInt z => ret z
  | VFloat q => ret (trunc q)
  | VStr s => lift_opt ValueError (parse_int s)
  | _ => raise TypeError
  end.

(** [float(v)]. *)
Definition py_float (v : PyVal) : M Q :=
  match v with
  | VInt z => ret (inject_Z z)
  | VFloat q => ret q
  | VStr s => lift_opt ValueError (parse_float s)
  | _ => raise TypeError
  end.

(** [a / b] on floats. *)
Definition truediv (a b : Q) : M Q :=
  if Qeq_bool b 0 then raise ZeroDivisionError else ret (a / b)%Q.

(** A value used as a [datetime]. *)
Definition as_time (v : PyVal) : M Time :=
  match v with
  | VTime t => ret t
  | _ => raise TypeError
  end.

(** Truthiness of an optional string: [None] and [''] are false. *)
Definition truthy (o : option string) : bool :=
  match o with
  | Some s => negb (String.eqb s "")
  | None => false
  end.

(** [s.replace('.', '/')]. *)
Fixpoint replace_dot (s : string) : string :=
  match s with
  | EmptyString => EmptyString
  | String c r =>
      String (if Ascii.eqb c "."%char then "/"%char else c) (replace_dot r)
  end.

(** [v == s] for a string [s]. *)
Definition eq_str (v : PyVal) (s : string) : bool :=
  match v with
  | VStr s' => String.eqb s' s
  | _ => false
  end.

Definition minutes (n : Z) : TimeDelta := n * 60000000.

(** [timedelta(seconds=x)]: rounded to the microsecond. *)
Definition timedelta_seconds (x : Q) : TimeDelta :=
  round_half_even (x * 1000000).

(** [td.total_seconds()]. *)
Definition total_seconds (td : TimeDelta) : Q := (inject_Z td / 1000000)%Q.

(** [_fmt_mins]: seconds to minutes, one decimal place. *)
Definition _fmt_mins (seconds : Q) : Q := round1 (seconds / 60).

(** One row of an entity's history; only ['state'] is read. *)
Record Row := { state : string; last_changed : Time }.

(** What [get_history] returns: a list with one list of rows per entity,
    or something that is not a list. *)
Definition History := option (list (list Row)).

Definition usage_sensor : string := "sensor.flo_shutoff_today_s_water_usage".

(** What the host answers when a handler asks: the two clock reads of
    [check_usage] ([datetime.now()] and [datetime.now(tz)], the same instant
    when no time passes between them), the sensor's [last_reported]
    attribute ([None] when it is not an ISO timestamp), the valve's state
    and the history returned for a given [start_time]. *)
Record World := {
  now_naive : Time;
  now_aware : Time;
  last_reported : option Time;
  valve_state : option string;
  history : Time -> History
}.

(** The host over time: what the sensor and the recorder hold at each
    instant. Timers are taken to fire exactly when due. *)
Record Host := {
  sensor : Time -> option Time;
  valve : Time -> option string;
  recorder : Time -> Time -> History
}.

Definition world_at (h : Host) (t : Time) : World :=
  {| now_naive := t; now_aware := t;
     last_reported := sensor h t;
     valve_state := valve h t;
     history := recorder h t |}.

Definition seconds (n : Z) : TimeDelta := n * 1000000.

(** The first timer a handler armed for [cb], if any. *)
Fixpoint armed (cb : Callback) (tr : Trace)
  : option (Z * option (gmap string PyVal)) :=
  match tr with
  | RunIn cb' delay data :: r =>
      match cb, cb' with
      | CheckValve, CheckValve | CheckUsage, CheckUsage => Some (delay, data)
      | _, _ => armed cb r
      end
  | _ :: r => armed cb r
  | [] => None
  end.

(** The service calls of a trace, in order. *)
Fixpoint notifications (tr : Trace) : list (string * string * Message) :=
  match tr with
  | CallService s t m :: r => (s, t, m) :: notifications r
  | _ :: r => notifications r
  | [] => []
  end.

(** The history queries of a trace, in order. *)
Fixpoint queries (tr : Trace) : list (string * Time) :=
  match tr with
  | GetHistory e t :: r => (e, t) :: queries r
  | _ :: r => queries r
  | [] => []
  end.

(** The terminal states of a verification task. *)
Inductive Outcome := Confirmed | Alert | Abandoned.

(** ** [src/apps/irrigation_check/irrigation_check.py] *)
Module Apps.

(** [self.args], with the types the annotations of [initialize] give. *)
Record Args := {
  arg_sequence_entity_id : option string;
  arg_sprinkler_entity_id : option string;
  arg_min_duration : option Z;
  arg_min_expected_lpm : option Z;
  arg_notify_ok_action : option string;
  arg_notify_alert_action : option string
}.

Record IrrigationCheck := {
  sequence_entity_id : string;
  sprinkler_entity_id : option string;
  min_duration : Z;
  min_expected_lpm : Z;
  notify_ok_action : option string;
  notify_alert_action : option string
}.

Definition initialize (args : Args) : M IrrigationCheck :=
  sid <- lift_opt (KeyError "sequence_entity_id") (arg_sequence_entity_id args) ;;
  let self :=
    {| sequence_entity_id := sid;
       sprinkler_entity_id := arg_sprinkler_entity_id args;
       min_duration := default 3 (arg_min_duration args);
       min_expected_lpm := default 10 (arg_min_expected_lpm args);
       notify_ok_action := arg_notify_ok_action args;
       notify_alert_action := arg_notify_alert_action args |} in
  emit (ListenEvent "irrigation_unlimited_finish") ;;
  ret self.

(** The event handler. It returns the payload as it left it: the dict is
    updated in place before it is handed to the timer. *)
Definition irrigation_complete (self : IrrigationCheck) (w : World)
    (event_type : string) (data : gmap string PyVal)
  : M (gmap string PyVal) :=
  eid <- getitem data "entity_id" ;;
  if eq_str eid (sequence_entity_id self) then
    (if truthy (sprinkler_entity_id self)
     then emit (RunIn CheckValve 10 None) else ret tt) ;;
    run <- getitem data "run" ;;
    d <- subscript run "duration" ;;
    duration <- py_int d ;;
    if Qltb (inject_Z duration / 60) (inject_Z (min_duration self)) then
      emit (Log (ShortRun (_fmt_mins (inject_Z duration)))) ;;
      ret data
    else
      emit (Log BeginningChecks) ;;
      let data := <["duration" := VInt duration]> data in
      let data := <["finish_time" := VTime (now_aware w)]> data in
      emit (RunIn CheckUsage 30 (Some data)) ;;
      ret data
  else ret data.

Definition check_valve (self : IrrigationCheck) (w : World) : M unit :=
  emit (GetState (sprinkler_entity_id self) None) ;;
  match valve_state w with
  | Some s =>
      if String.eqb s "on"
      then emit (Error (ValveOn (sprinkler_entity_id self)))
      else ret tt
  | None => ret tt
  end.

Definition _get_history_state_delta (w : World) (entity_id : string)
    (start_time : Time) : M Q :=
  emit (GetHistory entity_id start_time) ;;
  match history w start_time with
  | None => raise AssertionError
  | Some hist =>
      h0 <- lift_opt IndexError (hist !! 0%nat) ;;
      r0 <- lift_opt IndexError (head h0) ;;
      start_val <- lift_opt ValueError (parse_float (state r0)) ;;
      h0' <- lift_opt IndexError (hist !! 0%nat) ;;
      r1 <- lift_opt IndexError (last h0') ;;
      end_val <- lift_opt ValueError (parse_float (state r1)) ;;
      ret (end_val - start_val)%Q
  end.

(** The [return] (or the end of the body) by which [check_usage] left. *)
Inductive Branch :=
| Recheck
| TooOldToCheck
| FoundExpected (usage_liters : Z) (lpm : Q)
| FoundBelow (usage_liters : Z) (lpm : Q).

Definition check_usage (self : IrrigationCheck) (w : World) (data : gmap string PyVal)
  : M Branch :=
  emit (GetState (Some usage_sensor) (Some "last_reported")) ;;
  reported <- lift_opt ValueError (last_reported w) ;;
  ft <- getitem data "finish_time" ;;
  finish_time <- as_time ft ;;
  let latency := reported - finish_time in
  if reported <? finish_time then
    emit (Log (NotYetUpdated reported finish_time)) ;;
    emit (RunIn CheckUsage 60 (Some data)) ;;
    ret Recheck
  else if minutes 30 <? latency then
    emit (Error (TooOld finish_time)) ;;
    ret TooOldToCheck
  else
    (if minutes 10 <? latency
     then emit (Log (LateReport (_fmt_mins (total_seconds latency))))
     else ret tt) ;;
    dv <- getitem data "duration" ;;
    duration <- py_float dv ;;
    let start_time :=
      now_naive w - (now_aware w - finish_time) - timedelta_seconds duration in
    delta <- _get_history_state_delta w usage_sensor start_time ;;
    let usage_liters := trunc delta in
    lpm <- truediv (inject_Z usage_liters) (duration / 60) ;;
    emit (Log (FoundLpm lpm (_fmt_mins duration)
                 (_fmt_mins (total_seconds latency)))) ;;
    if Qltb (inject_Z (min_expected_lpm self)) lpm then
      let msg := ExpectedUsage (inject_Z usage_liters) (_fmt_mins duration) in
      emit (Log (InfoLine msg)) ;;
      match notify_ok_action self with
      | Some a =>
          if truthy (Some a)
          then emit (CallService (replace_dot a) "Irrigation OK" msg)
          else ret tt
      | None => ret tt
      end ;;
      ret (FoundExpected usage_liters lpm)
    else
      let msg := UsageMismatch (_fmt_mins duration) (inject_Z usage_liters) in
      emit (Log (AlertLine msg)) ;;
      match notify_alert_action self with
      | Some a =>
          if truthy (Some a)
          then emit (CallService (replace_dot a) "Irrigation Alert" msg)
          else ret tt
      | None => ret tt
      end ;;
      ret (FoundBelow usage_liters lpm).

Definition outcome (b : Branch) : option Outcome :=
  match b with
  | Recheck => None
  | TooOldToCheck => Some Abandoned
  | FoundExpected _ _ => Some Confirmed
  | FoundBelow _ _ => Some Alert
  end.

(** How a run of the timers of one task ends. *)
Inductive TaskEnd :=
| Finished (b : Branch)
| Raised (e : PyExc)
| Waiting (at_time : Time).

(** One task: [check_usage] at time [t], then again whenever it armed a
    timer for itself, at most [fuel] times. *)
Fixpoint run_checks (fuel : nat) (self : IrrigationCheck) (h : Host) (t : Time)
    (data : gmap string PyVal) : Trace * TaskEnd :=
  match fuel with
  | O => ([], Waiting t)
  | S n =>
      let '(tr, r) := check_usage self (world_at h t) data in
      match r with
      | inl e => (tr, Raised e)
      | inr b =>
          match armed CheckUsage tr with
          | Some (delay, Some data') =>
              let '(tr', e) := run_checks n self h (t + seconds delay) data' in
              (tr ++ tr', e)
          | _ => (tr, Finished b)
          end
      end
  end.

(** One event: the handler at time [t], then the timers it armed. *)
Definition run_event (fuel : nat) (self : IrrigationCheck) (h : Host) (t : Time)
    (event_type : string) (data : gmap string PyVal)
  : Trace * option TaskEnd :=
  let '(tr, r) := irrigation_complete self (world_at h t) event_type data in
  let tv :=
    match armed CheckValve tr with
    | Some (delay, _) => fst (check_valve self (world_at h (t + seconds delay)))
    | None => []
    end in
  match armed CheckUsage tr with
  | Some (delay, Some data') =>
      let '(tr', e) := run_checks fuel self h (t + seconds delay) data' in
      (tr ++ tv ++ tr', Some e)
  | _ => (tr ++ tv, match r with inl e => Some (Raised e) | inr _ => None end)
  end.

End Apps.

(** ** [src/irrigation_check.py] *)
Module Batch.

Record Args := {
  arg_sequence_entity_id : option string;
  arg_min_duration : option Z;
  arg_delay_minutes : option Z;
  arg_min_expected_lpm : option Z;
  arg_alert_notify_action : option string
}.

Record IrrigationCheck := {
  sequence_entity_id : string;
  min_duration : Z;
  delay_minutes : Z;
  min_expected_lpm : Z;
  alert_notify_action : option string
}.

Definition initialize (args : Args) : M IrrigationCheck :=
  sid <- lift_opt (KeyError "sequence_entity_id") (arg_sequence_entity_id args) ;;
  let self :=
    {| sequence_entity_id := sid;
       min_duration := default 3 (arg_min_duration args);
       delay_minutes := default 10 (arg_delay_minutes args);
       min_expected_lpm := default 10 (arg_min_expected_lpm args);
       alert_notify_action := arg_alert_notify_action args |} in
  emit (ListenEvent "irrigation_unlimited_finish") ;;
  ret self.

(** [int(int(data['run']['duration']) / 60)]: whole minutes. *)
Definition run_minutes (data : gmap string PyVal) : M Z :=
  run <- getitem data "run" ;;
  d <- subscript run "duration" ;;
  secs <- py_int d ;;
  ret (trunc (inject_Z secs / 60)).

Definition irrigation_complete (self : IrrigationCheck) (event_type : string)
    (data : gmap string PyVal) : M unit :=
  eid <- getitem data "entity_id" ;;
  if eq_str eid (sequence_entity_id self) then
    duration <- run_minutes data ;;
    if duration <? min_duration self then
      emit (Log (ShortRunMinutes duration))
    else
      emit (Log (RunningCheckIn (delay_minutes self))) ;;
      emit (RunIn CheckUsage (delay_minutes self * 60) (Some data))
  else ret tt.

Definition _get_history_state_delta (w : World) (entity_id : string)
    (history_minutes : Z) : M Q :=
  let start_time := now_naive w - minutes history_minutes in
  emit (GetHistory entity_id start_time) ;;
  match history w start_time with
  | None => raise AssertionError
  | Some hist =>
      h0 <- lift_opt IndexError (hist !! 0%nat) ;;
      r0 <- lift_opt IndexError (head h0) ;;
      start_val <- lift_opt ValueError (parse_float (state r0)) ;;
      h0' <- lift_opt IndexError (hist !! 0%nat) ;;
      r1 <- lift_opt IndexError (last h0') ;;
      end_val <- lift_opt ValueError (parse_float (state r1)) ;;
      ret (end_val - start_val)%Q
  end.

(** The arm of the final conditional by which [check_usage] left. *)
Inductive Branch :=
| FoundExpected (usage_liters : Q) (duration : Z)
| FoundBelow (usage_liters : Q) (duration : Z).

Definition check_usage (self : IrrigationCheck) (w : World) (data : gmap string PyVal)
  : M Branch :=
  duration <- run_minutes data ;;
  let history_mins := delay_minutes self + duration in
  delta <- _get_history_state_delta w usage_sensor history_mins ;;
  let usage_liters := round1 delta in
  if Qltb (inject_Z (duration * min_expected_lpm self)) usage_liters then
    emit (Log (InfoLine (ExpectedUsage usage_liters (inject_Z duration)))) ;;
    ret (FoundExpected usage_liters duration)
  else
    let msg := UsageMismatch (inject_Z duration) usage_liters in
    emit (Log (AlertLine msg)) ;;
    match alert_notify_action self with
    | Some a =>
        if truthy (Some a)
        then emit (CallService (replace_dot a) "Irrigation Alert" msg)
        else ret tt
    | None => ret tt
    end ;;
    ret (FoundBelow usage_liters duration).

Definition outcome (b : Branch) : Outcome :=
  match b with
  | FoundExpected _ _ => Confirmed
  | FoundBelow _ _ => Alert
  end.

(** One event: the handler at time [t], then the check it armed. *)
Definition run_event (self : IrrigationCheck) (h : Host) (t : Time)
    (event_type : string) (data : gmap string PyVal)
  : Trace * option (PyExc + Branch) :=
  let '(tr, r) := irrigation_complete self event_type data in
  match armed CheckUsage tr with
  | Some (delay, Some data') =>
      let '(tr', e) := check_usage self (world_at h (t + seconds delay)) data' in
      (tr ++ tr', Some e)
  | _ => (tr, match r with inl e => Some (inl e) | inr _ => None end)
  end.

End Batch.

(** ** Sample data *)

Definition event (entity : string) (duration : PyVal) : gmap string PyVal :=
  <["entity_id" := VStr entity]>
    (<["run" := VDict (<["duration" := duration]> ∅)]> ∅).

Definition rows (states : list string) : History :=
  Some [map (fun s => {| state := s; last_changed := 0 |}) states].

Definition app0 : Apps.IrrigationCheck :=
  {| Apps.sequence_entity_id := "binary_sensor.irrigation_unlimited_c1_s1";
     Apps.sprinkler_entity_id := None;
     Apps.min_duration := 3;
     Apps.min_expected_lpm := 10;
     Apps.notify_ok_action := Some "notify.phone";
     Apps.notify_alert_action := Some "notify.phone" |}.

(** [app0] with a sprinkler entity to check the valve of. *)
Definition sprinkler_app0 : Apps.IrrigationCheck :=
  {| Apps.sequence_entity_id := "binary_sensor.irrigation_unlimited_c1_s1";
     Apps.sprinkler_entity_id := Some "switch.sprinkler";
     Apps.min_duration := 3;
     Apps.min_expected_lpm := 10;
     Apps.notify_ok_action := Some "notify.phone";
     Apps.notify_alert_action := Some "notify.phone" |}.

Definition batch0 : Batch.IrrigationCheck :=
  {| Batch.sequence_entity_id := "binary_sensor.irrigation_unlimited_c1_s1";
     Batch.min_duration := 3;
     Batch.delay_minutes := 10;
     Batch.min_expected_lpm := 10;
     Batch.alert_notify_action := Some "notify.phone" |}.

(** A task as [Apps.irrigation_complete] hands it over. *)
Definition task (duration : Z) (finish_time : Time) : gmap string PyVal :=
  <["finish_time" := VTime finish_time]>
    (<["duration" := VInt duration]>
       (event "binary_sensor.irrigation_unlimited_c1_s1" (VInt duration))).

(** A world at [now] in which the sensor last reported at [reported] and
    the history holds [states]. *)
Definition world (now reported : Time) (states : list string) : World :=
  {| now_naive := now; now_aware := now;
     last_reported := Some reported;
     valve_state := None;
     history := fun _ => rows states |}.

(** ** Views used by the statements *)

(** The service call a handler makes for [action], if it is set. *)
Definition call_if (action : option string) (title : string) (m : Message)
  : Trace :=
  match action with
  | Some a => if truthy (Some a) then [CallService (replace_dot a) title m] else []
  | None => []
  end.

(** [data['entity_id']] when it is a string. *)
Definition programId (data : gmap string PyVal) : option string :=
  match data !! "entity_id" with
  | Some (VStr s) => Some s
  | _ => None
  end.

(** [int(data['run']['duration'])] when it has a value. *)
Definition durationSeconds (data : gmap string PyVal) : option Z :=
  match data !! "run" with
  | Some (VDict run) =>
      match run !! "duration" with
      | Some d => match py_int d with (_, inr z) => Some z | _ => None end
      | None => None
      end
  | _ => None
  end.

(** The start of the window [Apps.check_usage] asks the history for. *)
Definition window_start (w : World) (finish_time : Time) (duration : Q) : Time :=
  now_naive w - (now_aware w - finish_time) - timedelta_seconds duration.

(** An evaluation by [Apps.check_usage]: the sensor has reported at or after
    [finish_time] and at most 30 minutes later, the task's duration is the
    number [duration], not zero, and the history query over the window has
    answered [delta]. *)
Definition evaluation (w : World) (data : gmap string PyVal)
    (finish_time : Time) (duration delta : Q) : Prop :=
  exists reported dv,
    last_reported w = Some reported /\
    data !! "finish_time" = Some (VTime finish_time) /\
    finish_time <= reported <= finish_time + minutes 30 /\
    data !! "duration" = Some dv /\
    py_float dv = ret duration /\
    ~ (duration / 60 == 0)%Q /\
    snd (Apps._get_history_state_delta w usage_sensor
           (window_start w finish_time duration)) = inr delta.

(** The flow rate [Apps.check_usage] classifies by. *)
Definition flow (b : Apps.Branch) : option Q :=
  match b with
  | Apps.FoundExpected _ lpm | Apps.FoundBelow _ lpm => Some lpm
  | _ => None
  end.

(** The notification that belongs to a branch of [Apps.check_usage]. *)
Definition sent_for (self : Apps.IrrigationCheck) (b : Apps.Branch)
    (n : string * string * Message) : Prop :=
  let '(service, title, _) := n in
  match b with
  | Apps.FoundExpected _ _ =>
      title = "Irrigation OK" /\
      exists a, Apps.notify_ok_action self = Some a /\ a <> "" /\
                service = replace_dot a
  | Apps.FoundBelow _ _ =>
      title = "Irrigation Alert" /\
      exists a, Apps.notify_alert_action self = Some a /\ a <> "" /\
                service = replace_dot a
  | _ => False
  end.


(** A sensor that stopped reporting one second before time 0. *)
Definition stalled : Host :=
  {| sensor := fun _ => Some (seconds (-1));
     valve := fun _ => None;
     recorder := fun _ _ => rows [] |}.

(** A host whose history always holds [states] and whose sensor always
    reported at [reported]. *)
Definition steady (reported : Time) (states : list string) : Host :=
  {| sensor := fun _ => Some reported;
     valve := fun _ => None;
     recorder := fun _ _ => rows states |}.

Definition finish_event : string := "irrigation_unlimited_finish".
Definition c1_s1 : string := "binary_sensor.irrigation_unlimited_c1_s1".
(** The timer [Apps.irrigation_complete] arms for the valve check. *)
Definition valve_timer (self : Apps.IrrigationCheck) : Trace :=
  if truthy (Apps.sprinkler_entity_id self)
  then [RunIn CheckValve 10 None] else [].

(** The payload as [Apps.irrigation_complete] hands it to [check_usage]. *)
Definition handed_over (w : World) (data : gmap string PyVal) (secs : Z)
  : gmap string PyVal :=
  <["finish_time" := VTime (now_aware w)]> (<["duration" := VInt secs]> data).

(** The threshold of the duration filter, in seconds. *)
Definition minDurationSeconds (min_duration : Z) : Z := 60 * min_duration.

(** The read of the usage sensor that opens [Apps.check_usage]. *)
Definition sensor_read : Effect :=
  GetState (Some usage_sensor) (Some "last_reported").

(** A payload [Apps.irrigation_complete] handles without raising: it has an
    [entity_id], and when that is the configured one, a [run] that is a dict
    with a [duration] that [int] converts. *)
Definition well_formed (sid : string) (data : gmap string PyVal) : bool :=
  match data !! "entity_id" with
  | None => false
  | Some eid =>
      if eq_str eid sid
      then match durationSeconds data with Some _ => true | None => false end
      else true
  end.

(** The usage and the whole minutes [Batch.check_usage] compared. *)
Definition batch_reading (b : Batch.Branch) : Q * Z :=
  match b with
  | Batch.FoundExpected u d | Batch.FoundBelow u d => (u, d)
  end.

(** The notification that belongs to a branch of [Batch.check_usage]. *)
Definition batch_sent_for (self : Batch.IrrigationCheck) (b : Batch.Branch)
    (n : string * string * Message) : Prop :=
  let '(service, title, _) := n in
  Batch.outcome b = Alert /\ title = "Irrigation Alert" /\
  exists a, Batch.alert_notify_action self = Some a /\ a <> "" /\
            service = replace_dot a.

(** The number of timers a trace armed for [check_usage]. *)
Fixpoint retries (tr : Trace) : nat :=
  match tr with
  | RunIn CheckUsage _ _ :: r => S (retries r)
  | _ :: r => retries r
  | [] => O
  end.


(** ** Further views *)

(** Whether a string holds a dot. *)
Fixpoint has_dot (s : string) : bool :=
  match s with
  | EmptyString => false
  | String c r => Ascii.eqb c "."%char || has_dot r
  end.

(** The host [h] with another valve. *)
Definition with_valve (h : Host) (v : Time -> option string) : Host :=
  {| sensor := sensor h; valve := v; recorder := recorder h |}.

(** The timers of a trace, in order. *)
Fixpoint timers (tr : Trace)
  : list (Callback * Z * option (gmap string PyVal)) :=
  match tr with
  | RunIn cb delay data :: r => (cb, delay, data) :: timers r
  | _ :: r => timers r
  | [] => []
  end.

(** Whether the payload names the program [sid]. *)
Definition names_program (sid : string) (data : gmap string PyVal) : bool :=
  match data !! "entity_id" with
  | Some eid => eq_str eid sid
  | None => false
  end.

(** The exceptions a history read can end with. *)
Definition history_error (e : PyExc) : Prop :=
  e = AssertionError \/ e = IndexError \/ e = ValueError.

(** A host whose sensor reported one second before time 0 and again 50
    seconds after it, seen from one minute after it. *)
Definition catching_up (states : list string) : Host :=
  {| sensor := fun t => if t <? seconds 60 then Some (seconds (-1))
                        else Some (seconds 50);
     valve := fun _ => None;
     recorder := fun _ _ => rows states |}.

(** ** Sample runs *)

(** A run of 600 s, a report two minutes after the finish, 120 liters. *)
Example run_of_120_liters :
  Apps.check_usage app0
    (world (seconds 150) (seconds 120) ["1000.0"; "1120.0"]) (task 600 0)
  = ([sensor_read;
      GetHistory usage_sensor (seconds (-600));
      Log (FoundLpm (7200 # 600) (_fmt_mins 600) (_fmt_mins 120));
      Log (InfoLine (ExpectedUsage 120 (_fmt_mins 600)));
      CallService "notify/phone" "Irrigation OK"
        (ExpectedUsage 120 (_fmt_mins 600))],
     inr (Apps.FoundExpected 120 (7200 # 600))).
Proof. vm_compute. reflexivity. Qed.

(** The same run with 40 liters. *)
Example run_of_40_liters :
  Apps.check_usage app0
    (world (seconds 150) (seconds 120) ["1000.0"; "1040.0"]) (task 600 0)
  = ([sensor_read;
      GetHistory usage_sensor (seconds (-600));
      Log (FoundLpm (2400 # 600) (_fmt_mins 600) (_fmt_mins 120));
      Log (AlertLine (UsageMismatch (_fmt_mins 600) 40));
      CallService "notify/phone" "Irrigation Alert"
        (UsageMismatch (_fmt_mins 600) 40)],
     inr (Apps.FoundBelow 40 (2400 # 600))).
Proof. vm_compute. reflexivity. Qed.

(** A run of 90 s is logged and dropped. *)
Example run_of_90_seconds :
  Apps.run_event 3 app0 (steady (seconds 20) ["0"; "120"]) 0 finish_event
    (event c1_s1 (VInt 90))
  = ([Log (ShortRun (_fmt_mins 90))], None).
Proof. vm_compute. reflexivity. Qed.

(** The first check comes too early for the sensor, the second one
    classifies: the timer is armed by the handler and once more by the
    first check. *)
Example run_checked_twice :
  let run := Apps.run_event 3 app0 (catching_up ["0"; "120"]) 0 finish_event
               (event c1_s1 (VInt 600)) in
  snd run = Some (Apps.Finished (Apps.FoundExpected 120 (7200 # 600))) /\
  retries (fst run) = 2%nat /\
  queries (fst run) = [(usage_sensor, seconds (-600))] /\
  notifications (fst run)
  = [("notify/phone", "Irrigation OK", ExpectedUsage 120 (_fmt_mins 600))].
Proof. cbv zeta. repeat split; vm_compute; reflexivity. Qed.

(** The batch app checks once, ten minutes after the event. *)
Example batch_run_of_40_liters :
  Batch.run_event batch0 (steady (seconds 20) ["1000.0"; "1040.0"]) 0
    finish_event (event c1_s1 (VInt 600))
  = ([Log (RunningCheckIn 10);
      RunIn CheckUsage 600 (Some (event c1_s1 (VInt 600)));
      GetHistory usage_sensor (seconds (-600));
      Log (AlertLine (UsageMismatch 10 (round1 40)));
      CallService "notify/phone" "Irrigation Alert"
        (UsageMismatch 10 (round1 40))],
     Some (inr (Batch.FoundBelow (round1 40) 10))).
Proof. vm_compute. reflexivity. Qed.

(** ** Conversions leave no effect *)

Lemma py_float_trace v tr r : py_float v = (tr, r) -> tr = [].
Proof.
  destruct v; simpl; try (intros [= ]; by subst).
  destruct (parse_float s); simpl; intros [= ]; by subst.
Qed.

(** ** Traces *)

Lemma notifications_app tr1 tr2 :
  notifications (tr1 ++ tr2) = notifications tr1 ++ notifications tr2.
Proof.
  induction tr1 as [|[] tr1 IH]; simpl; [done|..]; by rewrite ?IH.
Qed.

Lemma queries_app tr1 tr2 : queries (tr1 ++ tr2) = queries tr1 ++ queries tr2.
Proof.
  induction tr1 as [|[] tr1 IH]; simpl; [done|..]; by rewrite ?IH.
Qed.

(** ** [Apps.check_usage], branch by branch *)

Ltac py_step :=
  cbn [bind ret raise emit lift_opt getitem as_time subscript fst snd app].

Section CheckUsage.
Variables (self : Apps.IrrigationCheck) (w : World) (data : gmap string PyVal).
Variables (reported finish_time : Time).
Hypothesis Hrep : last_reported w = Some reported.
Hypothesis Hfin : data !! "finish_time" = Some (VTime finish_time).

Lemma check_usage_recheck :
  reported < finish_time ->
  Apps.check_usage self w data =
    ([sensor_read; Log (NotYetUpdated reported finish_time);
      RunIn CheckUsage 60 (Some data)], inr Apps.Recheck).
Proof.
  intros Hlt. unfold Apps.check_usage, getitem. rewrite Hrep. py_step.
  rewrite Hfin. py_step.
  destruct (Z.ltb_spec reported finish_time); [done|lia].
Qed.

Lemma check_usage_too_old :
  finish_time + minutes 30 < reported ->
  Apps.check_usage self w data =
    ([sensor_read; Error (TooOld finish_time)], inr Apps.TooOldToCheck).
Proof.
  intros Hlt. unfold Apps.check_usage, getitem. rewrite Hrep. py_step.
  rewrite Hfin. py_step.
  destruct (Z.ltb_spec reported finish_time); [unfold minutes in *; lia|].
  destruct (Z.ltb_spec (minutes 30) (reported - finish_time)); [done|lia].
Qed.

Section Fresh.
Variables (dv : PyVal) (duration delta : Q) (trh : Trace).
Hypothesis Hfresh : finish_time <= reported <= finish_time + minutes 30.
Hypothesis Hdv : data !! "duration" = Some dv.
Hypothesis Hdur : py_float dv = ret duration.
Hypothesis Hdelta :
  Apps._get_history_state_delta w usage_sensor
    (window_start w finish_time duration) = (trh, inr delta).

Let late : Trace :=
  if minutes 10 <? reported - finish_time
  then [Log (LateReport (_fmt_mins (total_seconds (reported - finish_time))))]
  else [].
Let lpm : Q := (inject_Z (trunc delta) / (duration / 60))%Q.

Lemma check_usage_zero :
  Qeq_bool (duration / 60) 0 = true ->
  Apps.check_usage self w data =
    (sensor_read :: late ++ trh, inl ZeroDivisionError).
Proof.
  intros Hz. unfold Apps.check_usage, getitem, truediv.
  rewrite Hrep. py_step. rewrite Hfin. py_step.
  destruct (Z.ltb_spec reported finish_time); [lia|].
  destruct (Z.ltb_spec (minutes 30) (reported - finish_time)); [lia|].
  subst late.
  destruct (minutes 10 <? reported - finish_time); py_step;
    rewrite Hdv; py_step; rewrite Hdur; py_step;
    unfold window_start in Hdelta; rewrite Hdelta; py_step;
    rewrite Hz; py_step; by rewrite ?app_nil_r.
Qed.

Lemma check_usage_evaluates :
  Qeq_bool (duration / 60) 0 = false ->
  Apps.check_usage self w data =
    if Qltb (inject_Z (Apps.min_expected_lpm self)) lpm then
      let msg := ExpectedUsage (inject_Z (trunc delta)) (_fmt_mins duration) in
      (sensor_read :: late ++ trh ++
         Log (FoundLpm lpm (_fmt_mins duration)
                (_fmt_mins (total_seconds (reported - finish_time))))
         :: Log (InfoLine msg)
         :: call_if (Apps.notify_ok_action self) "Irrigation OK" msg,
       inr (Apps.FoundExpected (trunc delta) lpm))
    else
      let msg := UsageMismatch (_fmt_mins duration) (inject_Z (trunc delta)) in
      (sensor_read :: late ++ trh ++
         Log (FoundLpm lpm (_fmt_mins duration)
                (_fmt_mins (total_seconds (reported - finish_time))))
         :: Log (AlertLine msg)
         :: call_if (Apps.notify_alert_action self) "Irrigation Alert" msg,
       inr (Apps.FoundBelow (trunc delta) lpm)).
Proof.
  intros Hz. unfold Apps.check_usage, getitem, truediv.
  rewrite Hrep. py_step. rewrite Hfin. py_step.
  destruct (Z.ltb_spec reported finish_time); [lia|].
  destruct (Z.ltb_spec (minutes 30) (reported - finish_time)); [lia|].
  subst late lpm.
  destruct (minutes 10 <? reported - finish_time); py_step;
    rewrite Hdv; py_step; rewrite Hdur; py_step;
    unfold window_start in Hdelta; rewrite Hdelta; py_step;
    rewrite Hz; py_step; unfold call_if;
    (destruct (Qltb _ _); py_step;
     [ destruct (Apps.notify_ok_action self) as [a|]; py_step;
       [destruct (truthy (Some a)); py_step|]
     | destruct (Apps.notify_alert_action self) as [a|]; py_step;
       [destruct (truthy (Some a)); py_step|] ]);
    by rewrite ?app_nil_r.
Qed.
End Fresh.
End CheckUsage.

Lemma get_history_state_delta_trace w e s :
  fst (Apps._get_history_state_delta w e s) = [GetHistory e s].
Proof.
  unfold Apps._get_history_state_delta. py_step.
  destruct (history w s) as [hist|]; [|done].
  destruct (hist !! 0%nat) as [h0|]; py_step; [|done].
  destruct (head h0); py_step; [|done].
  destruct (parse_float _); py_step; [|done].
  destruct (last h0); py_step; [|done].
  by destruct (parse_float _).
Qed.

Lemma armed_app_nil cb tr1 tr2 :
  armed cb tr1 = None -> armed cb (tr1 ++ tr2) = armed cb tr2.
Proof.
  induction tr1 as [|x tr1 IH]; simpl; [done|].
  destruct x; try done. destruct cb, cb0; done.
Qed.

Lemma armed_call_if cb action title m : armed cb (call_if action title m) = None.
Proof.
  destruct action as [a|]; simpl; [|done]. by destruct (String.eqb a "").
Qed.

(** Every run of [Apps.check_usage] is one of: an exception, with no timer
    armed and no service called; a re-check; a report too old; an
    evaluation. *)
Lemma check_usage_cases self w data :
  (exists e, snd (Apps.check_usage self w data) = inl e /\
             armed CheckUsage (fst (Apps.check_usage self w data)) = None /\
             notifications (fst (Apps.check_usage self w data)) = [] /\
             (queries (fst (Apps.check_usage self w data)) = [] \/
              exists finish_time dv duration,
                data !! "finish_time" = Some (VTime finish_time) /\
                data !! "duration" = Some dv /\
                py_float dv = ret duration /\
                queries (fst (Apps.check_usage self w data))
                = [(usage_sensor, window_start w finish_time duration)])) \/
  (exists reported finish_time,
      last_reported w = Some reported /\
      data !! "finish_time" = Some (VTime finish_time) /\
      (reported < finish_time \/
       finish_time + minutes 30 < reported \/
       (finish_time <= reported <= finish_time + minutes 30 /\
        exists dv duration delta,
          data !! "duration" = Some dv /\
          py_float dv = ret duration /\
          Apps._get_history_state_delta w usage_sensor
            (window_start w finish_time duration) =
            ([GetHistory usage_sensor (window_start w finish_time duration)],
             inr delta) /\
          Qeq_bool (duration / 60) 0 = false))).
Proof.
  destruct (last_reported w) as [reported|] eqn:Hrep; cycle 1.
  { left. unfold Apps.check_usage. rewrite Hrep. eexists.
    repeat split; by left. }
  destruct (data !! "finish_time") as [ft|] eqn:Hfin; cycle 1.
  { left. unfold Apps.check_usage, getitem. rewrite Hrep, Hfin. eexists.
    repeat split; by left. }
  destruct ft as [| | | |finish_time|];
    try (left; unfold Apps.check_usage, getitem; rewrite Hrep, Hfin; eexists;
         repeat split; by left).
  destruct (Z.lt_ge_cases reported finish_time) as [Hlt|Hge].
  { right. exists reported, finish_time. auto. }
  destruct (Z.lt_ge_cases (finish_time + minutes 30) reported) as [Hold|Hle].
  { right. exists reported, finish_time. auto. }
  assert (Hfresh : finish_time <= reported <= finish_time + minutes 30) by lia.
  destruct (data !! "duration") as [dv|] eqn:Hdv; cycle 1.
  { left. unfold Apps.check_usage, getitem. rewrite Hrep. py_step.
    rewrite Hfin. py_step.
    destruct (Z.ltb_spec reported finish_time); [lia|].
    destruct (Z.ltb_spec (minutes 30) (reported - finish_time)); [lia|].
    destruct (minutes 10 <? reported - finish_time); py_step;
      rewrite Hdv; py_step; eexists; repeat split; by left. }
  destruct (py_float dv) as [trf [e|duration]] eqn:Hdur;
    pose proof (py_float_trace _ _ _ Hdur) as ->.
  { left. unfold Apps.check_usage, getitem. rewrite Hrep. py_step.
    rewrite Hfin. py_step.
    destruct (Z.ltb_spec reported finish_time); [lia|].
    destruct (Z.ltb_spec (minutes 30) (reported - finish_time)); [lia|].
    destruct (minutes 10 <? reported - finish_time); py_step;
      rewrite Hdv; py_step; rewrite Hdur; py_step; eexists;
      repeat split; by left. }
  pose proof (get_history_state_delta_trace w usage_sensor
                (window_start w finish_time duration)) as Htr.
  destruct (Apps._get_history_state_delta w usage_sensor
              (window_start w finish_time duration)) as [trh [e|delta]] eqn:Hd;
    simpl in Htr; subst trh.
  { left. unfold Apps.check_usage, getitem. rewrite Hrep. py_step.
    rewrite Hfin. py_step.
    destruct (Z.ltb_spec reported finish_time); [lia|].
    destruct (Z.ltb_spec (minutes 30) (reported - finish_time)); [lia|].
    unfold window_start in Hd.
    destruct (minutes 10 <? reported - finish_time); py_step;
      rewrite Hdv; py_step; rewrite Hdur; py_step; rewrite Hd; py_step;
      (eexists; repeat split; try done; right;
       exists finish_time, dv, duration; by repeat split). }
  destruct (Qeq_bool (duration / 60) 0) eqn:Hz.
  { left. rewrite (check_usage_zero self w data reported finish_time Hrep Hfin
                     dv duration delta _ Hfresh Hdv Hdur Hd Hz).
    exists ZeroDivisionError. cbn [fst snd].
    destruct (minutes 10 <? reported - finish_time);
      (repeat split; try done; right;
       exists finish_time, dv, duration; by repeat split). }
  right. exists reported, finish_time. do 2 (split; [done|]).
  right; right. split; [done|]. by exists dv, duration, delta.
Qed.

(** ** Arithmetic of the model *)

Lemma Qltb_lt a b : Qltb a b = true <-> (a < b)%Q.
Proof.
  unfold Qltb. rewrite negb_true_iff. split.
  - intros H. apply Qnot_le_lt. intros Hle.
    apply Qle_bool_iff in Hle. congruence.
  - intros H. destruct (Qle_bool b a) eqn:E; [|done].
    apply Qle_bool_iff in E. exfalso. by apply (Qlt_not_le a b).
Qed.

Lemma Qltb_ge a b : Qltb a b = false <-> (b <= a)%Q.
Proof.
  unfold Qltb. rewrite negb_false_iff. apply Qle_bool_iff.
Qed.

(** [duration / 60 < min_duration], in seconds. *)
Lemma minutes_lt_iff (secs m : Z) :
  Qltb (inject_Z secs / 60) (inject_Z m) = true <-> secs < 60 * m.
Proof.
  rewrite Qltb_lt. unfold Qlt, Qdiv, Qmult, Qinv, inject_Z. simpl. lia.
Qed.

Lemma trunc_minutes (secs : Z) : trunc (inject_Z secs / 60) = Z.quot secs 60.
Proof. unfold trunc. simpl. by rewrite Z.mul_1_r. Qed.

Lemma whole_minutes_lt_iff (secs m : Z) :
  0 <= secs -> (Z.quot secs 60 <? m) = true <-> secs < 60 * m.
Proof.
  intros Hs. rewrite Z.ltb_lt, Z.quot_div_nonneg by lia.
  pose proof (Z.div_mod secs 60) as Hd.
  pose proof (Z.mod_pos_bound secs 60) as Hm. lia.
Qed.

Lemma timedelta_whole_seconds (secs : Z) :
  timedelta_seconds (inject_Z secs) = seconds secs.
Proof.
  unfold timedelta_seconds, round_half_even, seconds.
  assert (E : (inject_Z secs * 1000000 == inject_Z (secs * 1000000))%Q).
  { by rewrite inject_Z_mult. }
  assert (Hf : Qfloor (inject_Z secs * 1000000) = secs * 1000000).
  { rewrite (Qfloor_comp _ _ E). apply Qfloor_Z. }
  rewrite Hf.
  assert (Hr : (inject_Z secs * 1000000 - inject_Z (secs * 1000000) == 0)%Q).
  { rewrite E. ring. }
  assert (Hc : (inject_Z secs * 1000000 - inject_Z (secs * 1000000) ?= 1 # 2)%Q = Lt).
  { rewrite (Qcompare_comp _ _ Hr (1 # 2) (1 # 2) (Qeq_refl _)). reflexivity. }
  by rewrite Hc.
Qed.

(** ** The event handlers *)

Lemma py_int_trace v tr r : py_int v = (tr, r) -> tr = [].
Proof.
  destruct v; simpl; try (intros [= ]; by subst).
  destruct (parse_int s); simpl; intros [= ]; by subst.
Qed.

Lemma programId_inv data sid :
  programId data = Some sid -> data !! "entity_id" = Some (VStr sid).
Proof.
  unfold programId. destruct (data !! "entity_id") as [[]|]; congruence.
Qed.

Lemma durationSeconds_inv data secs :
  durationSeconds data = Some secs ->
  exists run d, data !! "run" = Some (VDict run) /\
                run !! "duration" = Some d /\ py_int d = ret secs.
Proof.
  unfold durationSeconds.
  destruct (data !! "run") as [[| | | | |run]|] eqn:Hrun; try discriminate.
  destruct (run !! "duration") as [d|] eqn:Hd; [|discriminate].
  destruct (py_int d) as [tr [e|z]] eqn:E; [discriminate|].
  intros [= ->]. exists run, d.
  by pose proof (py_int_trace _ _ _ E) as ->.
Qed.

Lemma armed_valve_timer self : armed CheckUsage (valve_timer self) = None.
Proof. unfold valve_timer. by destruct (truthy _). Qed.

Lemma queries_valve_timer self : queries (valve_timer self) = [].
Proof. unfold valve_timer. by destruct (truthy _). Qed.

Lemma apps_irrigation_complete_matching self w et data secs :
  programId data = Some (Apps.sequence_entity_id self) ->
  durationSeconds data = Some secs ->
  Apps.irrigation_complete self w et data =
    if Qltb (inject_Z secs / 60) (inject_Z (Apps.min_duration self)) then
      (valve_timer self ++ [Log (ShortRun (_fmt_mins (inject_Z secs)))],
       inr data)
    else
      (valve_timer self ++
         [Log BeginningChecks;
          RunIn CheckUsage 30 (Some (handed_over w data secs))],
       inr (handed_over w data secs)).
Proof.
  intros Hid Hd. apply programId_inv in Hid.
  apply durationSeconds_inv in Hd as (run & d & Hrun & Hdur & Hint).
  unfold Apps.irrigation_complete, getitem, valve_timer, handed_over.
  rewrite Hid. py_step. unfold eq_str. rewrite String.eqb_refl.
  destruct (truthy _); py_step; rewrite Hrun; py_step; unfold getitem;
    rewrite Hdur; py_step; rewrite Hint; py_step; by destruct (Qltb _ _).
Qed.

Lemma check_valve_trace self w :
  exists rest, fst (Apps.check_valve self w)
               = GetState (Apps.sprinkler_entity_id self) None :: rest /\
               (rest = [] \/
                rest = [Error (ValveOn (Apps.sprinkler_entity_id self))]).
Proof.
  unfold Apps.check_valve. py_step.
  destruct (valve_state w) as [s|]; [destruct (String.eqb s "on")|];
    py_step; eauto.
Qed.

Lemma fst_bind_emit {B} x (f : unit -> M B) :
  fst (bind (emit x) f) = x :: fst (f tt).
Proof. simpl. by destruct (f tt). Qed.

Lemma check_usage_head self w data :
  exists rest, fst (Apps.check_usage self w data) = sensor_read :: rest.
Proof. unfold Apps.check_usage. rewrite fst_bind_emit. by eexists. Qed.

Lemma batch_run_minutes data secs :
  durationSeconds data = Some secs ->
  Batch.run_minutes data = ret (Z.quot secs 60).
Proof.
  intros Hd. apply durationSeconds_inv in Hd as (run & d & Hrun & Hdur & Hint).
  unfold Batch.run_minutes, getitem. rewrite Hrun. py_step. unfold getitem.
  rewrite Hdur. py_step. rewrite Hint. py_step. by rewrite trunc_minutes.
Qed.

Lemma batch_run_minutes_trace data tr r :
  Batch.run_minutes data = (tr, r) -> tr = [].
Proof.
  unfold Batch.run_minutes, getitem.
  destruct (data !! "run") as [v|]; py_step; [|intros [= ]; by subst].
  destruct v; py_step; try (intros [= ]; by subst). unfold getitem.
  destruct (d !! "duration") as [dv|]; py_step; [|intros [= ]; by subst].
  destruct (py_int dv) as [tr' [e|z]] eqn:E; py_step;
    rewrite (py_int_trace _ _ _ E); intros [= ]; by subst.
Qed.

Lemma batch_irrigation_complete_matching self et data secs :
  programId data = Some (Batch.sequence_entity_id self) ->
  durationSeconds data = Some secs ->
  Batch.irrigation_complete self et data =
    if Z.quot secs 60 <? Batch.min_duration self then
      ([Log (ShortRunMinutes (Z.quot secs 60))], inr tt)
    else
      ([Log (RunningCheckIn (Batch.delay_minutes self));
        RunIn CheckUsage (Batch.delay_minutes self * 60) (Some data)], inr tt).
Proof.
  intros Hid Hd. apply programId_inv in Hid.
  unfold Batch.irrigation_complete, getitem.
  rewrite Hid. py_step. unfold eq_str. rewrite String.eqb_refl.
  rewrite (batch_run_minutes _ _ Hd). py_step. by destruct (_ <? _).
Qed.

Lemma batch_history_is_apps w e m :
  Batch._get_history_state_delta w e m
  = Apps._get_history_state_delta w e (now_naive w - minutes m).
Proof. reflexivity. Qed.

Lemma batch_history_trace w e m :
  fst (Batch._get_history_state_delta w e m)
  = [GetHistory e (now_naive w - minutes m)].
Proof.
  unfold Batch._get_history_state_delta. py_step.
  destruct (history w _) as [hist|]; [|done].
  destruct (hist !! 0%nat) as [h0|]; py_step; [|done].
  destruct (head h0); py_step; [|done].
  destruct (parse_float _); py_step; [|done].
  destruct (last h0); py_step; [|done].
  by destruct (parse_float _).
Qed.

Lemma batch_check_usage_evaluates self w data mins delta :
  Batch.run_minutes data = ret mins ->
  snd (Batch._get_history_state_delta w usage_sensor
         (Batch.delay_minutes self + mins)) = inr delta ->
  Batch.check_usage self w data =
    let start := now_naive w - minutes (Batch.delay_minutes self + mins) in
    if Qltb (inject_Z (mins * Batch.min_expected_lpm self)) (round1 delta) then
      ([GetHistory usage_sensor start;
        Log (InfoLine (ExpectedUsage (round1 delta) (inject_Z mins)))],
       inr (Batch.FoundExpected (round1 delta) mins))
    else
      let msg := UsageMismatch (inject_Z mins) (round1 delta) in
      (GetHistory usage_sensor start :: Log (AlertLine msg)
         :: call_if (Batch.alert_notify_action self) "Irrigation Alert" msg,
       inr (Batch.FoundBelow (round1 delta) mins)).
Proof.
  intros Hm Hd.
  pose proof (batch_history_trace w usage_sensor
                (Batch.delay_minutes self + mins)) as Htr.
  destruct (Batch._get_history_state_delta w usage_sensor _) as [trh r] eqn:E.
  simpl in Htr, Hd. subst trh r.
  unfold Batch.check_usage. rewrite Hm. py_step. rewrite E. py_step.
  unfold call_if.
  destruct (Qltb _ _); py_step; [done|].
  destruct (Batch.alert_notify_action self) as [a|]; py_step; [|done].
  by destruct (truthy (Some a)).
Qed.

(** Every run of [Batch.check_usage] is an exception, with no service
    called, or a classification. *)
Lemma batch_check_usage_cases self w data :
  (exists e, snd (Batch.check_usage self w data) = inl e /\
             notifications (fst (Batch.check_usage self w data)) = [] /\
             armed CheckUsage (fst (Batch.check_usage self w data)) = None) \/
  (exists mins delta,
      Batch.run_minutes data = ret mins /\
      snd (Batch._get_history_state_delta w usage_sensor
             (Batch.delay_minutes self + mins)) = inr delta).
Proof.
  destruct (Batch.run_minutes data) as [trm [e|mins]] eqn:Hm;
    pose proof (batch_run_minutes_trace _ _ _ Hm) as ->.
  { left. exists e. unfold Batch.check_usage. by rewrite Hm. }
  pose proof (batch_history_trace w usage_sensor
                (Batch.delay_minutes self + mins)) as Htr.
  destruct (Batch._get_history_state_delta w usage_sensor
              (Batch.delay_minutes self + mins)) as [trh [e|delta]] eqn:E;
    simpl in Htr; subst trh.
  { left. exists e. unfold Batch.check_usage. rewrite Hm. py_step.
    by rewrite E. }
  right. exists mins, delta. by rewrite E.
Qed.

(** ** The duration filter *)

Lemma run_checks_head n self h t data :
  exists rest, fst (Apps.run_checks (S n) self h t data) = sensor_read :: rest.
Proof.
  destruct (check_usage_head self (world_at h t) data) as [rest Hrest].
  cbn [Apps.run_checks].
  destruct (Apps.check_usage self (world_at h t) data) as [tr [e|b]];
    simpl in Hrest; subst tr; [by eexists|].
  destruct (armed CheckUsage _) as [[delay [data'|]]|]; try by eexists.
  destruct (Apps.run_checks n self h _ data'). by eexists.
Qed.

Lemma apps_short_run fuel self h t et data secs :
  programId data = Some (Apps.sequence_entity_id self) ->
  durationSeconds data = Some secs ->
  secs < minDurationSeconds (Apps.min_duration self) ->
  exists tv,
    Apps.run_event fuel self h t et data =
      (valve_timer self ++ [Log (ShortRun (_fmt_mins (inject_Z secs)))] ++ tv,
       None) /\
    (tv = [] \/
     exists rest, tv = GetState (Apps.sprinkler_entity_id self) None :: rest /\
       (rest = [] \/ rest = [Error (ValveOn (Apps.sprinkler_entity_id self))])).
Proof.
  intros Hid Hd Hlt. unfold Apps.run_event.
  rewrite (apps_irrigation_complete_matching _ _ _ _ _ Hid Hd).
  apply minutes_lt_iff in Hlt. rewrite Hlt.
  rewrite armed_app_nil by apply armed_valve_timer. cbn [armed].
  unfold valve_timer. destruct (truthy _); cbn [armed app].
  - destruct (check_valve_trace self (world_at h (t + seconds 10)))
      as (rest & -> & Hrest).
    eexists. split; [done|]. right. eauto.
  - exists []. by split; [|left].
Qed.

Lemma apps_long_run fuel self h t et data secs :
  programId data = Some (Apps.sequence_entity_id self) ->
  durationSeconds data = Some secs ->
  minDurationSeconds (Apps.min_duration self) <= secs ->
  armed CheckUsage (fst (Apps.irrigation_complete self (world_at h t) et data))
    = Some (30, Some (handed_over (world_at h t) data secs)) /\
  exists tv e,
    Apps.run_event fuel self h t et data =
      ((valve_timer self ++
          [Log BeginningChecks;
           RunIn CheckUsage 30 (Some (handed_over (world_at h t) data secs))])
         ++ tv ++
         fst (Apps.run_checks fuel self h (t + seconds 30)
                (handed_over (world_at h t) data secs)),
       Some e) /\
    queries tv = [].
Proof.
  intros Hid Hd Hge. unfold Apps.run_event.
  rewrite (apps_irrigation_complete_matching _ _ _ _ _ Hid Hd).
  destruct (Qltb _ _) eqn:Hlt.
  { apply minutes_lt_iff in Hlt. unfold minDurationSeconds in Hge. lia. }
  cbn [fst].
  rewrite !armed_app_nil by apply armed_valve_timer. cbn [armed].
  split; [done|].
  destruct (Apps.run_checks fuel self h _ _) as [tr' e].
  eexists _, e. split; [reflexivity|].
  unfold valve_timer. destruct (truthy _); cbn [armed app]; [|done].
  by destruct (check_valve_trace self (world_at h (t + seconds 10)))
    as (rest & -> & [-> | ->]).
Qed.

Lemma batch_short_run self h t et data secs :
  programId data = Some (Batch.sequence_entity_id self) ->
  durationSeconds data = Some secs ->
  0 <= secs ->
  secs < minDurationSeconds (Batch.min_duration self) ->
  Batch.run_event self h t et data
  = ([Log (ShortRunMinutes (Z.quot secs 60))], None).
Proof.
  intros Hid Hd Hpos Hlt. unfold Batch.run_event.
  rewrite (batch_irrigation_complete_matching _ _ _ _ Hid Hd).
  apply whole_minutes_lt_iff in Hlt; [|done]. by rewrite Hlt.
Qed.

Lemma batch_long_run self h t et data secs :
  programId data = Some (Batch.sequence_entity_id self) ->
  durationSeconds data = Some secs ->
  0 <= secs ->
  minDurationSeconds (Batch.min_duration self) <= secs ->
  Batch.irrigation_complete self et data
  = ([Log (RunningCheckIn (Batch.delay_minutes self));
      RunIn CheckUsage (Batch.delay_minutes self * 60) (Some data)], inr tt) /\
  Batch.run_event self h t et data
  = (let w := world_at h (t + seconds (Batch.delay_minutes self * 60)) in
     ([Log (RunningCheckIn (Batch.delay_minutes self));
       RunIn CheckUsage (Batch.delay_minutes self * 60) (Some data)]
        ++ fst (Batch.check_usage self w data),
      Some (snd (Batch.check_usage self w data)))).
Proof.
  intros Hid Hd Hpos Hge. unfold Batch.run_event.
  rewrite (batch_irrigation_complete_matching _ _ _ _ Hid Hd).
  destruct (_ <? _) eqn:Hlt.
  { apply whole_minutes_lt_iff in Hlt; [|done].
    unfold minDurationSeconds in Hge. lia. }
  split; [done|]. cbn [armed].
  by destruct (Batch.check_usage self _ data).
Qed.

Lemma batch_check_usage_queries self w data secs :
  durationSeconds data = Some secs ->
  queries (fst (Batch.check_usage self w data))
  = [(usage_sensor,
      now_naive w - minutes (Batch.delay_minutes self + Z.quot secs 60))].
Proof.
  intros Hd. pose proof (batch_run_minutes _ _ Hd) as Hm.
  pose proof (batch_history_trace w usage_sensor
                (Batch.delay_minutes self + Z.quot secs 60)) as Htr.
  destruct (Batch._get_history_state_delta w usage_sensor
              (Batch.delay_minutes self + Z.quot secs 60))
    as [trh [e|delta]] eqn:E; simpl in Htr; subst trh.
  - unfold Batch.check_usage. rewrite Hm. py_step. by rewrite E.
  - rewrite (batch_check_usage_evaluates self w data _ delta Hm)
      by (by rewrite E).
    cbv zeta. destruct (Qltb _ _); cbn [fst queries]; [done|].
    f_equal. unfold call_if.
    destruct (Batch.alert_notify_action self) as [a|]; [|done].
    by destruct (truthy (Some a)).
Qed.

(** C2. A finish event of the configured program whose duration is below
    the threshold (60 times [min_duration], 180 s by default) creates no
    task and reads neither the usage sensor nor its history; at or above
    the threshold the check is handed to a timer and, in [Apps], the first
    check reads the sensor. In [Batch], which counts whole minutes, this is
    stated for the non-negative durations of a run. *)
Theorem short_runs_are_not_checked :
  (forall (self : Apps.IrrigationCheck) h t et data secs fuel,
      programId data = Some (Apps.sequence_entity_id self) ->
      durationSeconds data = Some secs ->
      let run := Apps.run_event fuel self h t et data in
      (secs < minDurationSeconds (Apps.min_duration self) ->
       snd run = None /\ armed CheckUsage (fst run) = None /\
       queries (fst run) = [] /\ ~ In sensor_read (fst run)) /\
      (minDurationSeconds (Apps.min_duration self) <= secs ->
       armed CheckUsage
         (fst (Apps.irrigation_complete self (world_at h t) et data))
       = Some (30, Some (handed_over (world_at h t) data secs)) /\
       (fuel <> O -> In sensor_read (fst run)))) /\
  (forall (self : Batch.IrrigationCheck) h t et data secs,
      programId data = Some (Batch.sequence_entity_id self) ->
      durationSeconds data = Some secs ->
      0 <= secs ->
      let run := Batch.run_event self h t et data in
      (secs < minDurationSeconds (Batch.min_duration self) ->
       snd run = None /\ armed CheckUsage (fst run) = None /\
       queries (fst run) = []) /\
      (minDurationSeconds (Batch.min_duration self) <= secs ->
       armed CheckUsage (fst (Batch.irrigation_complete self et data))
       = Some (Batch.delay_minutes self * 60, Some data) /\
       exists start, queries (fst run) = [(usage_sensor, start)])) /\
  (forall args tr self,
      Apps.initialize args = (tr, inr self) ->
      Apps.arg_min_duration args = None ->
      minDurationSeconds (Apps.min_duration self) = 180) /\
  (forall args tr self,
      Batch.initialize args = (tr, inr self) ->
      Batch.arg_min_duration args = None ->
      minDurationSeconds (Batch.min_duration self) = 180).
Proof.
  split; [|split; [|split]].
  - intros self h t et data secs fuel Hid Hd run. subst run. split.
    + intros Hlt.
      destruct (apps_short_run fuel self h t et data secs Hid Hd Hlt)
        as (tv & -> & Htv).
      cbn [fst snd]. split; [done|].
      rewrite armed_app_nil by apply armed_valve_timer.
      rewrite queries_app, queries_valve_timer.
      unfold valve_timer.
      destruct Htv as [-> | (rest & -> & [-> | ->])];
        (repeat split; [done..|]);
        destruct (truthy _); cbn [app In];
        intros H; repeat (destruct H as [H|H]; try discriminate H); done.
    + intros Hge.
      destruct (apps_long_run fuel self h t et data secs Hid Hd Hge)
        as (Harm & tv & e & -> & _).
      split; [done|]. intros Hfuel. destruct fuel as [|n]; [done|].
      destruct (run_checks_head n self h (t + seconds 30)
                  (handed_over (world_at h t) data secs)) as [rest ->].
      cbn [fst]. rewrite !in_app_iff. right; right. by left.
  - intros self h t et data secs Hid Hd Hpos run. subst run. split.
    + intros Hlt. by rewrite (batch_short_run _ _ _ _ _ _ Hid Hd Hpos Hlt).
    + intros Hge.
      destruct (batch_long_run self h t et data secs Hid Hd Hpos Hge)
        as [-> ->].
      split; [done|]. cbv zeta. cbn [fst app queries].
      rewrite (batch_check_usage_queries _ _ _ _ Hd). by eexists.
  - intros args tr self Hinit Hnone. unfold Apps.initialize in Hinit.
    destruct (Apps.arg_sequence_entity_id args); [|discriminate].
    injection Hinit as _ <-. cbn. by rewrite Hnone.
  - intros args tr self Hinit Hnone. unfold Batch.initialize in Hinit.
    destruct (Batch.arg_sequence_entity_id args); [|discriminate].
    injection Hinit as _ <-. cbn. by rewrite Hnone.
Qed.

Lemma short_runs_are_not_checked_witness :
  queries (fst (Apps.run_event 3 app0 (steady (seconds 120) ["0"; "120"]) 0
                  finish_event (event c1_s1 (VInt 90)))) = [] /\
  In sensor_read
    (fst (Apps.run_event 3 app0 (steady (seconds 120) ["0"; "120"]) 0
            finish_event (event c1_s1 (VInt 180)))) /\
  queries (fst (Batch.run_event batch0 (steady (seconds 120) ["0"; "120"]) 0
                  finish_event (event c1_s1 (VInt 90)))) = [] /\
  minDurationSeconds (Apps.min_duration app0) = 180.
Proof.
  destruct short_runs_are_not_checked as (Happs & Hbatch & Hdef & _).
  split; [|split; [|split]].
  - apply (Happs app0 (steady (seconds 120) ["0"; "120"]) 0 finish_event
             (event c1_s1 (VInt 90)) 90 3%nat);
      [reflexivity | reflexivity | vm_compute; reflexivity].
  - apply (Happs app0 (steady (seconds 120) ["0"; "120"]) 0 finish_event
             (event c1_s1 (VInt 180)) 180 3%nat);
      [reflexivity | reflexivity | vm_compute; discriminate | discriminate].
  - apply (Hbatch batch0 (steady (seconds 120) ["0"; "120"]) 0 finish_event
             (event c1_s1 (VInt 90)) 90);
      [reflexivity | reflexivity | lia | vm_compute; reflexivity].
  - apply (Hdef {| Apps.arg_sequence_entity_id := Some c1_s1;
                   Apps.arg_sprinkler_entity_id := None;
                   Apps.arg_min_duration := None;
                   Apps.arg_min_expected_lpm := None;
                   Apps.arg_notify_ok_action := Some "notify.phone";
                   Apps.arg_notify_alert_action := Some "notify.phone" |}
                [ListenEvent finish_event]); reflexivity.
Defined.

(** ** Evaluations *)

(** What an evaluation leaves: the branch, the service calls, no timer,
    one history query. *)
Lemma evaluation_run self w data finish_time duration delta :
  evaluation w data finish_time duration delta ->
  let lpm := (inject_Z (trunc delta) / (duration / 60))%Q in
  let run := Apps.check_usage self w data in
  snd run =
    inr (if Qltb (inject_Z (Apps.min_expected_lpm self)) lpm
         then Apps.FoundExpected (trunc delta) lpm
         else Apps.FoundBelow (trunc delta) lpm) /\
  notifications (fst run) =
    (if Qltb (inject_Z (Apps.min_expected_lpm self)) lpm
     then notifications
            (call_if (Apps.notify_ok_action self) "Irrigation OK"
               (ExpectedUsage (inject_Z (trunc delta)) (_fmt_mins duration)))
     else notifications
            (call_if (Apps.notify_alert_action self) "Irrigation Alert"
               (UsageMismatch (_fmt_mins duration) (inject_Z (trunc delta))))) /\
  armed CheckUsage (fst run) = None /\
  queries (fst run) = [(usage_sensor, window_start w finish_time duration)].
Proof.
  intros (reported & dv & Hrep & Hfin & Hfresh & Hdv & Hdur & Hnz & Hdelta).
  intros lpm run. subst run.
  pose proof (get_history_state_delta_trace w usage_sensor
                (window_start w finish_time duration)) as Htr.
  destruct (Apps._get_history_state_delta w usage_sensor
              (window_start w finish_time duration)) as [trh r] eqn:E.
  simpl in Htr, Hdelta. subst trh r.
  assert (Hz : Qeq_bool (duration / 60) 0 = false).
  { destruct (Qeq_bool (duration / 60) 0) eqn:Hq; [|done].
    apply Qeq_bool_iff in Hq. contradiction. }
  rewrite (check_usage_evaluates self w data reported finish_time Hrep Hfin
             dv duration delta _ Hfresh Hdv Hdur E Hz).
  fold lpm. cbv zeta.
  destruct (Qltb _ lpm); cbn [fst snd]; (split; [done|]);
    destruct (minutes 10 <? reported - finish_time);
    cbn [app notifications armed queries];
    rewrite ?armed_call_if;
    (repeat split; try done);
    unfold call_if;
    match goal with
    | |- context [match ?o with Some _ => _ | None => _ end] =>
        destruct o as [a|]; [destruct (truthy (Some a))|]; done
    end.
Qed.

(** A run of [Apps.check_usage] that classified was an evaluation. *)
Lemma classified_evaluation self w data b lpm :
  snd (Apps.check_usage self w data) = inr b ->
  flow b = Some lpm ->
  exists finish_time duration delta,
    evaluation w data finish_time duration delta /\
    lpm = (inject_Z (trunc delta) / (duration / 60))%Q.
Proof.
  intros Hrun Hflow.
  destruct (check_usage_cases self w data)
    as [(e & He & _) | (reported & finish_time & Hrep & Hfin & Hcase)].
  { congruence. }
  destruct Hcase as [Hlt | [Hold | (Hfresh & dv & duration & delta & Hdv & Hdur & Hd & Hz)]].
  - rewrite (check_usage_recheck self w data _ _ Hrep Hfin Hlt) in Hrun.
    injection Hrun as <-. discriminate.
  - rewrite (check_usage_too_old self w data _ _ Hrep Hfin Hold) in Hrun.
    injection Hrun as <-. discriminate.
  - assert (Hev : evaluation w data finish_time duration delta).
    { exists reported, dv. repeat (split; [done|]). split.
      - intros Hq. apply Qeq_bool_iff in Hq. congruence.
      - by rewrite Hd. }
    exists finish_time, duration, delta. split; [done|].
    destruct (evaluation_run self w data _ _ _ Hev) as (Hb & _).
    rewrite Hb in Hrun. injection Hrun as <-.
    destruct (Qltb _ _); simpl in Hflow; congruence.
Qed.

Lemma batch_classified self w data b :
  snd (Batch.check_usage self w data) = inr b ->
  exists mins delta,
    Batch.run_minutes data = ret mins /\
    snd (Batch._get_history_state_delta w usage_sensor
           (Batch.delay_minutes self + mins)) = inr delta /\
    b = (if Qltb (inject_Z (mins * Batch.min_expected_lpm self)) (round1 delta)
         then Batch.FoundExpected (round1 delta) mins
         else Batch.FoundBelow (round1 delta) mins).
Proof.
  intros Hrun.
  destruct (batch_check_usage_cases self w data)
    as [(e & He & _) | (mins & delta & Hm & Hd)]; [congruence|].
  exists mins, delta. do 2 (split; [done|]).
  rewrite (batch_check_usage_evaluates self w data mins delta Hm Hd) in Hrun.
  cbv zeta in Hrun. destruct (Qltb _ _); by injection Hrun as <-.
Qed.

Lemma Qlt_div_iff (a b c : Q) :
  (0 < c -> (a * c < b <-> a < b / c))%Q.
Proof.
  intros Hc. split.
  - by apply Qlt_shift_div_l.
  - intros H. apply (Qmult_lt_compat_r _ _ c) in H; [|done].
    assert (E : (b / c * c == b)%Q).
    { rewrite Qmult_comm. apply Qmult_div_r. intros E. rewrite E in Hc.
      by apply (Qlt_irrefl 0). }
    by rewrite E in H.
Qed.

(** ** The flow rate *)

(** C3 (as amended). In [Apps], the flow rate an evaluation classifies by
    is the delta of the history query truncated to whole liters, divided by
    [duration / 60]. [Batch] computes no rate: it compares the delta rounded
    to one decimal with whole minutes times [min_expected_lpm]. *)
Theorem flow_rate_of_whole_liters :
  (forall self w data b lpm,
      snd (Apps.check_usage self w data) = inr b ->
      flow b = Some lpm ->
      exists finish_time duration delta,
        evaluation w data finish_time duration delta /\
        (lpm == inject_Z (trunc delta) / (duration / 60))%Q) /\
  (forall self w data b,
      snd (Batch.check_usage self w data) = inr b ->
      exists mins delta,
        Batch.run_minutes data = ret mins /\
        snd (Batch._get_history_state_delta w usage_sensor
               (Batch.delay_minutes self + mins)) = inr delta /\
        batch_reading b = (round1 delta, mins) /\
        (Batch.outcome b = Confirmed <->
         (inject_Z (mins * Batch.min_expected_lpm self) < round1 delta)%Q)).
Proof.
  split.
  - intros self w data b lpm Hrun Hflow.
    destruct (classified_evaluation self w data b lpm Hrun Hflow)
      as (finish_time & duration & delta & Hev & ->).
    exists finish_time, duration, delta. split; [done|]. reflexivity.
  - intros self w data b Hrun.
    destruct (batch_classified self w data b Hrun)
      as (mins & delta & Hm & Hd & ->).
    exists mins, delta. do 2 (split; [done|]).
    destruct (Qltb _ _) eqn:Hlt; cbn [batch_reading Batch.outcome].
    + apply Qltb_lt in Hlt. by repeat split.
    + apply Qltb_ge in Hlt. split; [done|]. split; [discriminate|].
      intros Hc. exfalso. by apply (Qlt_not_le _ _ Hc).
Qed.

Lemma flow_rate_of_whole_liters_witness :
  exists finish_time duration delta,
    evaluation (world (seconds 150) (seconds 120) ["1000.0"; "1120.5"])
      (task 600 0) finish_time duration delta /\
    (7200 # 600 == inject_Z (trunc delta) / (duration / 60))%Q.
Proof.
  destruct flow_rate_of_whole_liters as [Happs _].
  apply (Happs app0 (world (seconds 150) (seconds 120) ["1000.0"; "1120.5"])
           (task 600 0) (Apps.FoundExpected 120 (7200 # 600)));
    vm_compute; reflexivity.
Defined.

(** C3, as stated, fails: with a delta of 120.5 liters over 600 s the rate
    classified by is 12, not 12.05. *)
Lemma flow_rate_counterexample :
  let w := world (seconds 150) (seconds 120) ["1000.0"; "1120.5"] in
  snd (Apps._get_history_state_delta w usage_sensor (window_start w 0 600))
  = inr (241 # 2) /\
  snd (Apps.check_usage app0 w (task 600 0))
  = inr (Apps.FoundExpected 120 (7200 # 600)) /\
  ~ (7200 # 600 == (241 # 2) / (600 / 60))%Q.
Proof.
  cbv zeta. split; [|split].
  - vm_compute. reflexivity.
  - vm_compute. reflexivity.
  - intros H. vm_compute in H. discriminate H.
Qed.

(** ** The threshold *)




(** ** Notifications *)

(** [Apps.irrigation_complete], case by case on the payload. *)
Lemma apps_irrigation_complete_cases self w et data :
  Apps.irrigation_complete self w et data =
    match data !! "entity_id" with
    | None => ([], inl (KeyError "entity_id"))
    | Some eid =>
        if eq_str eid (Apps.sequence_entity_id self) then
          match data !! "run" with
          | None => (valve_timer self, inl (KeyError "run"))
          | Some (VDict run) =>
              match run !! "duration" with
              | None => (valve_timer self, inl (KeyError "duration"))
              | Some d =>
                  match py_int d with
                  | (_, inl e) => (valve_timer self, inl e)
                  | (_, inr secs) =>
                      if Qltb (inject_Z secs / 60)
                           (inject_Z (Apps.min_duration self))
                      then
                        (valve_timer self ++
                           [Log (ShortRun (_fmt_mins (inject_Z secs)))],
                         inr data)
                      else
                        (valve_timer self ++
                           [Log BeginningChecks;
                            RunIn CheckUsage 30
                              (Some (handed_over w data secs))],
                         inr (handed_over w data secs))
                  end
              end
          | Some _ => (valve_timer self, inl TypeError)
          end
        else ([], inr data)
    end.
Proof.
  unfold Apps.irrigation_complete, getitem, valve_timer, handed_over.
  destruct (data !! "entity_id") as [eid|]; py_step; [|done].
  destruct (eq_str eid _); [|done].
  destruct (truthy _); py_step;
    (destruct (data !! "run") as [[| | | | |run]|]; py_step; try done;
     unfold getitem; destruct (run !! "duration") as [d|]; py_step; [|done];
     destruct (py_int d) as [tr [e|secs]] eqn:E;
     pose proof (py_int_trace _ _ _ E) as ->; py_step; [done|];
     by destruct (Qltb _ _)).
Qed.

Lemma notifications_valve_timer self : notifications (valve_timer self) = [].
Proof. unfold valve_timer. by destruct (truthy _). Qed.

Lemma apps_irrigation_complete_quiet self w et data :
  notifications (fst (Apps.irrigation_complete self w et data)) = [] /\
  queries (fst (Apps.irrigation_complete self w et data)) = [].
Proof.
  rewrite apps_irrigation_complete_cases.
  repeat (case_match; try done); cbn [fst];
    rewrite ?notifications_app, ?queries_app,
      ?notifications_valve_timer, ?queries_valve_timer; done.
Qed.

Lemma truthy_nonempty a : truthy (Some a) = true -> a <> "".
Proof.
  simpl. intros H ->. discriminate H.
Qed.

Lemma call_if_sent action title m n :
  In n (notifications (call_if action title m)) ->
  exists a, action = Some a /\ a <> "" /\ n = (replace_dot a, title, m).
Proof.
  unfold call_if. destruct action as [a|]; [|done].
  destruct (truthy (Some a)) eqn:Ht; [|done].
  intros [<- | []]. exists a. split; [done|].
  split; [by apply truthy_nonempty | done].
Qed.

Lemma call_if_length action title m :
  (length (notifications (call_if action title m)) <= 1)%nat.
Proof.
  unfold call_if. destruct action as [a|]; [|simpl; lia].
  destruct (truthy (Some a)); simpl; lia.
Qed.

(** One run of [Apps.check_usage]: what it armed and what it sent. *)
Lemma check_usage_step self w data :
  let run := Apps.check_usage self w data in
  match snd run with
  | inl _ => armed CheckUsage (fst run) = None /\ notifications (fst run) = []
  | inr Apps.Recheck =>
      armed CheckUsage (fst run) = Some (60, Some data) /\
      notifications (fst run) = [] /\ queries (fst run) = []
  | inr Apps.TooOldToCheck =>
      armed CheckUsage (fst run) = None /\
      notifications (fst run) = [] /\ queries (fst run) = []
  | inr b =>
      armed CheckUsage (fst run) = None /\
      (length (notifications (fst run)) <= 1)%nat /\
      forall n, In n (notifications (fst run)) -> sent_for self b n
  end.
Proof.
  cbv zeta.
  destruct (check_usage_cases self w data)
    as [(e & He & Ha & Hn & _) | (reported & finish_time & Hrep & Hfin & Hcase)].
  { by rewrite He. }
  destruct Hcase as [Hlt | [Hold | (Hfresh & dv & duration & delta & Hdv & Hdur & Hd & Hz)]].
  - by rewrite (check_usage_recheck self w data _ _ Hrep Hfin Hlt).
  - by rewrite (check_usage_too_old self w data _ _ Hrep Hfin Hold).
  - assert (Hev : evaluation w data finish_time duration delta).
    { exists reported, dv. repeat (split; [done|]). split.
      - intros Hq. apply Qeq_bool_iff in Hq. congruence.
      - by rewrite Hd. }
    destruct (evaluation_run self w data _ _ _ Hev) as (Hb & Hn & Ha & _).
    cbv zeta in Hb, Hn. rewrite Hb, Hn.
    destruct (Qltb _ _); (split; [done|]); (split; [apply call_if_length|]);
      intros [[service title] m] Hin;
      apply call_if_sent in Hin as (a & Hact & Hne & [= -> -> ->]);
      cbn [sent_for]; eauto.
Qed.

Lemma run_checks_notifications fuel self h t data :
  let run := Apps.run_checks fuel self h t data in
  (length (notifications (fst run)) <= 1)%nat /\
  forall n, In n (notifications (fst run)) ->
            exists b, snd run = Apps.Finished b /\ sent_for self b n.
Proof.
  cbv zeta. revert t data. induction fuel as [|fuel IH]; intros t data.
  { simpl. split; [lia|]. intros n []. }
  cbn [Apps.run_checks].
  pose proof (check_usage_step self (world_at h t) data) as Hstep.
  cbv zeta in Hstep.
  destruct (Apps.check_usage self (world_at h t) data) as [tr [e|b]];
    cbn [fst snd] in Hstep; cbv beta iota.
  { cbn [fst snd]. destruct Hstep as [_ ->]. simpl. split; [lia|].
    intros n []. }
  destruct b; cbv beta iota in Hstep.
  - destruct Hstep as (-> & Hn & _).
    specialize (IH (t + seconds 60) data).
    destruct (Apps.run_checks fuel self h (t + seconds 60) data) as [tr' e].
    cbn [fst snd] in *. by rewrite notifications_app, Hn.
  - destruct Hstep as (-> & Hn & _). cbn [fst snd]. rewrite Hn. simpl.
    split; [lia|]. intros n [].
  - destruct Hstep as (-> & Hlen & Hsent). cbn [fst snd]. split; [done|].
    intros n Hin. eauto.
  - destruct Hstep as (-> & Hlen & Hsent). cbn [fst snd]. split; [done|].
    intros n Hin. eauto.
Qed.

Lemma check_valve_quiet self w :
  notifications (fst (Apps.check_valve self w)) = [] /\
  queries (fst (Apps.check_valve self w)) = [].
Proof.
  by destruct (check_valve_trace self w) as (rest & -> & [-> | ->]).
Qed.

Lemma run_event_notifications fuel self h t et data :
  let run := Apps.run_event fuel self h t et data in
  (length (notifications (fst run)) <= 1)%nat /\
  forall n, In n (notifications (fst run)) ->
            exists b, snd run = Some (Apps.Finished b) /\ sent_for self b n.
Proof.
  unfold Apps.run_event.
  destruct (apps_irrigation_complete_quiet self (world_at h t) et data)
    as [Hq _].
  destruct (Apps.irrigation_complete self (world_at h t) et data) as [tr r].
  cbn [fst] in Hq.
  set (tv := match armed CheckValve tr with
             | Some (delay, _) =>
                 fst (Apps.check_valve self (world_at h (t + seconds delay)))
             | None => []
             end).
  assert (Hv : notifications tv = []).
  { subst tv. destruct (armed CheckValve tr) as [[delay ?]|]; [|done].
    apply check_valve_quiet. }
  destruct (armed CheckUsage tr) as [[delay [data'|]]|].
  - pose proof (run_checks_notifications fuel self h (t + seconds delay) data')
      as Hrun. cbv zeta in Hrun.
    destruct (Apps.run_checks fuel self h (t + seconds delay) data')
      as [tr' e]. cbn [fst snd] in *.
    rewrite !notifications_app, Hq, Hv. cbn [app].
    destruct Hrun as [Hlen Hsent]. split; [done|].
    intros n Hin. destruct (Hsent n Hin) as (b & -> & Hb). eauto.
  - cbv zeta. cbn [fst]. rewrite notifications_app, Hq, Hv. simpl.
    split; [lia|]. intros n [].
  - cbv zeta. cbn [fst]. rewrite notifications_app, Hq, Hv. simpl.
    split; [lia|]. intros n [].
Qed.

Lemma batch_irrigation_complete_quiet self et data :
  notifications (fst (Batch.irrigation_complete self et data)) = [] /\
  queries (fst (Batch.irrigation_complete self et data)) = [].
Proof.
  unfold Batch.irrigation_complete, getitem.
  destruct (data !! "entity_id") as [eid|]; py_step; [|done].
  destruct (eq_str eid _); [|done].
  destruct (Batch.run_minutes data) as [trm [e|mins]] eqn:Hm;
    pose proof (batch_run_minutes_trace _ _ _ Hm) as ->; py_step; [done|].
  by destruct (_ <? _).
Qed.

Lemma batch_check_usage_notifications self w data :
  let run := Batch.check_usage self w data in
  (length (notifications (fst run)) <= 1)%nat /\
  forall n, In n (notifications (fst run)) ->
            exists b, snd run = inr b /\ batch_sent_for self b n.
Proof.
  cbv zeta.
  destruct (batch_check_usage_cases self w data)
    as [(e & He & Hn & _) | (mins & delta & Hm & Hd)].
  { rewrite Hn. simpl. split; [lia|]. intros n []. }
  rewrite (batch_check_usage_evaluates self w data mins delta Hm Hd).
  cbv zeta. destruct (Qltb _ _); cbn [fst snd notifications].
  { simpl. split; [lia|]. intros n []. }
  split; [apply call_if_length|].
  intros [[service title] m] Hin.
  apply call_if_sent in Hin as (a & Hact & Hne & [= -> -> ->]).
  eexists. split; [done|]. cbn [batch_sent_for Batch.outcome].
  do 2 (split; [done|]). by exists a.
Qed.

(** C5. Over all the timers of one finish event the notification service
    is called at most once, and only by a check that ended in the
    expected-usage or the alert branch, with that branch's title, and only
    when the action of that branch is set and not empty. A task that ends
    as too old to check, or with an exception, calls nothing. *)
Theorem at_most_one_notification :
  (forall fuel self h t et data,
      let run := Apps.run_event fuel self h t et data in
      (length (notifications (fst run)) <= 1)%nat /\
      (forall n, In n (notifications (fst run)) ->
         exists b, snd run = Some (Apps.Finished b) /\
                   (Apps.outcome b = Some Confirmed \/
                    Apps.outcome b = Some Alert) /\
                   sent_for self b n) /\
      (snd run = Some (Apps.Finished Apps.TooOldToCheck) ->
       notifications (fst run) = []) /\
      (forall e, snd run = Some (Apps.Raised e) ->
       notifications (fst run) = [])) /\
  (forall self h t et data,
      let run := Batch.run_event self h t et data in
      (length (notifications (fst run)) <= 1)%nat /\
      (forall n, In n (notifications (fst run)) ->
         exists b, snd run = Some (inr b) /\ batch_sent_for self b n)).
Proof.
  split.
  - intros fuel self h t et data run.
    destruct (run_event_notifications fuel self h t et data) as [Hlen Hsent].
    fold run in Hlen, Hsent. split; [done|].
    assert (Hnone : forall e, snd run = Some e ->
              (forall b, e = Apps.Finished b -> flow b = None) ->
              notifications (fst run) = []).
    { intros e He Hflow. destruct (notifications (fst run)) as [|n ns]; [done|].
      destruct (Hsent n (or_introl eq_refl)) as (b & Hb & Hs).
      rewrite Hb in He. injection He as <-.
      specialize (Hflow b eq_refl).
      destruct n as [[service title] m]. by destruct b. }
    split; [|split].
    + intros n Hin. destruct (Hsent n Hin) as (b & Hb & Hs).
      exists b. split; [done|]. split; [|done].
      destruct n as [[service title] m].
      destruct b; cbn [sent_for] in Hs; try done; cbn; auto.
    + intros He. apply (Hnone _ He). by intros b [= <-].
    + intros e He. apply (Hnone _ He). by intros b [= ].
  - intros self h t et data. unfold Batch.run_event.
    destruct (batch_irrigation_complete_quiet self et data) as [Hq _].
    destruct (Batch.irrigation_complete self et data) as [tr r].
    cbn [fst] in Hq.
    destruct (armed CheckUsage tr) as [[delay [data'|]]|].
    + pose proof (batch_check_usage_notifications self
                    (world_at h (t + seconds delay)) data') as Hrun.
      cbv zeta in Hrun.
      destruct (Batch.check_usage self _ data') as [tr' e].
      cbv zeta. cbn [fst snd] in *. rewrite notifications_app, Hq.
      destruct Hrun as [Hlen Hsent]. split; [done|].
      intros n Hin. destruct (Hsent n Hin) as (b & -> & Hb). eauto.
    + cbv zeta. cbn [fst]. rewrite Hq. simpl. split; [lia|]. intros n [].
    + cbv zeta. cbn [fst]. rewrite Hq. simpl. split; [lia|]. intros n [].
Qed.

Lemma at_most_one_notification_witness :
  Nat.le
    (length (notifications
               (fst (Apps.run_event 3 app0 (steady (seconds 20) ["0"; "120"]) 0
                       finish_event (event c1_s1 (VInt 600))))))
    1 /\
  exists b,
    snd (Apps.run_event 3 app0 (steady (seconds 20) ["0"; "120"]) 0
           finish_event (event c1_s1 (VInt 600))) = Some (Apps.Finished b) /\
    (Apps.outcome b = Some Confirmed \/ Apps.outcome b = Some Alert) /\
    sent_for app0 b
      ("notify/phone", "Irrigation OK", ExpectedUsage 120 (_fmt_mins 600)).
Proof.
  destruct at_most_one_notification as [Happs _].
  destruct (Happs 3%nat app0 (steady (seconds 20) ["0"; "120"]) 0
              finish_event (event c1_s1 (VInt 600))) as (Hlen & Hsent & _).
  split; [exact Hlen|]. apply Hsent. vm_compute. left. reflexivity.
Defined.

(** ** Stale reports *)








(** ** Negative and missing deltas *)

Lemma trunc_nonpos q : (q <= 0)%Q -> trunc q <= 0.
Proof.
  unfold Qle, trunc. simpl. rewrite Z.mul_1_r. intros Hq.
  pose proof (Z.quot_pos (- Qnum q) (Z.pos (Qden q))) as Hpos.
  rewrite Z.quot_opp_l in Hpos by lia. lia.
Qed.


Lemma Qdiv_nonpos (a b : Q) : (a <= 0 -> 0 < b -> a / b <= 0)%Q.
Proof.
  intros Ha Hb. apply Qle_shift_div_r; [done|]. by rewrite Qmult_0_l.
Qed.

Lemma duration_minutes_pos (duration : Q) : (0 < duration -> 0 < duration / 60)%Q.
Proof. intros H. apply Qlt_shift_div_l; [done|]. by rewrite Qmult_0_l. Qed.

(** An evaluation whose whole liters are not positive, over a positive
    duration, with a non-negative threshold, ends in the alert branch. *)
Lemma evaluation_below self w data finish_time duration delta :
  evaluation w data finish_time duration delta ->
  trunc delta <= 0 ->
  (0 < duration)%Q ->
  0 <= Apps.min_expected_lpm self ->
  let lpm := (inject_Z (trunc delta) / (duration / 60))%Q in
  snd (Apps.check_usage self w data) = inr (Apps.FoundBelow (trunc delta) lpm) /\
  notifications (fst (Apps.check_usage self w data))
  = notifications
      (call_if (Apps.notify_alert_action self) "Irrigation Alert"
         (UsageMismatch (_fmt_mins duration) (inject_Z (trunc delta)))).
Proof.
  intros Hev Ht Hd Hmin lpm.
  destruct (evaluation_run self w data _ _ _ Hev) as (Hb & Hn & _).
  cbv zeta in Hb, Hn. fold lpm in Hb, Hn.
  assert (Hlt : Qltb (inject_Z (Apps.min_expected_lpm self)) lpm = false).
  { apply Qltb_ge. apply Qle_trans with 0%Q.
    - apply Qdiv_nonpos; [|by apply duration_minutes_pos].
      change 0%Q with (inject_Z 0). by rewrite <- Zle_Qle.
    - change 0%Q with (inject_Z 0). by rewrite <- Zle_Qle. }
  by rewrite Hlt in Hb, Hn.
Qed.

(** C6 (as amended). A negative delta is classified like any other: the
    check ends in one of the two classifying branches, never as abandoned;
    over a positive duration and with a non-negative threshold it ends in
    the alert branch, and the alert action, when set, is called. *)
Theorem negative_delta_is_classified self w data finish_time duration delta :
  evaluation w data finish_time duration delta ->
  (delta < 0)%Q ->
  (exists b lpm,
      snd (Apps.check_usage self w data) = inr b /\
      (Apps.outcome b = Some Confirmed \/ Apps.outcome b = Some Alert) /\
      flow b = Some lpm /\
      (lpm == inject_Z (trunc delta) / (duration / 60))%Q) /\
  ((0 < duration)%Q ->
   0 <= Apps.min_expected_lpm self ->
   exists lpm,
     snd (Apps.check_usage self w data)
     = inr (Apps.FoundBelow (trunc delta) lpm) /\
     notifications (fst (Apps.check_usage self w data))
     = notifications
         (call_if (Apps.notify_alert_action self) "Irrigation Alert"
            (UsageMismatch (_fmt_mins duration) (inject_Z (trunc delta))))).
Proof.
  intros Hev Hneg. split.
  - destruct (evaluation_run self w data _ _ _ Hev) as (Hb & _).
    cbv zeta in Hb. rewrite Hb.
    destruct (Qltb _ _); eexists _, _; (split; [done|]); cbn; split; auto;
      split; reflexivity.
  - intros Hd Hmin. eexists.
    apply (evaluation_below self w data _ _ _ Hev); [|done..].
    apply trunc_nonpos. by apply Qlt_le_weak.
Qed.

Lemma negative_delta_is_classified_witness :
  exists lpm,
    snd (Apps.check_usage app0
           (world (seconds 150) (seconds 120) ["500.0"; "20.0"]) (task 600 0))
    = inr (Apps.FoundBelow (trunc (-480)) lpm) /\
    notifications
      (fst (Apps.check_usage app0
              (world (seconds 150) (seconds 120) ["500.0"; "20.0"])
              (task 600 0)))
    = notifications
        (call_if (Apps.notify_alert_action app0) "Irrigation Alert"
           (UsageMismatch (_fmt_mins 600) (inject_Z (trunc (-480))))).
Proof.
  apply (negative_delta_is_classified app0
           (world (seconds 150) (seconds 120) ["500.0"; "20.0"])
           (task 600 0) 0 600 (-480)%Q).
  - exists (seconds 120), (VInt 600).
    repeat split; try reflexivity; try (vm_compute; discriminate).
  - reflexivity.
  - reflexivity.
  - vm_compute. discriminate.
Defined.

(** C6, as stated, fails: a counter that went from 500 to 20 liters is
    classified as an alert and notified. *)
Lemma counter_reset_counterexample :
  let w := world (seconds 150) (seconds 120) ["500.0"; "20.0"] in
  snd (Apps._get_history_state_delta w usage_sensor (window_start w 0 600))
  = inr (-480)%Q /\
  snd (Apps.check_usage app0 w (task 600 0))
  = inr (Apps.FoundBelow (-480) (-28800 # 600)) /\
  Apps.outcome (Apps.FoundBelow (-480) (-28800 # 600)) = Some Alert /\
  notifications (fst (Apps.check_usage app0 w (task 600 0)))
  = [("notify/phone", "Irrigation Alert", UsageMismatch (_fmt_mins 600) (-480))].
Proof.
  cbv zeta. repeat split; vm_compute; reflexivity.
Qed.




(** A check whose history read fails: what it leaves. *)
Lemma check_usage_history_fails self w data reported finish_time dv duration e :
  last_reported w = Some reported ->
  data !! "finish_time" = Some (VTime finish_time) ->
  finish_time <= reported <= finish_time + minutes 30 ->
  data !! "duration" = Some dv ->
  py_float dv = ret duration ->
  snd (Apps._get_history_state_delta w usage_sensor
         (window_start w finish_time duration)) = inl e ->
  Apps.check_usage self w data =
    (sensor_read ::
       (if minutes 10 <? reported - finish_time
        then [Log (LateReport
                     (_fmt_mins (total_seconds (reported - finish_time))))]
        else []) ++
       [GetHistory usage_sensor (window_start w finish_time duration)],
     inl e).
Proof.
  intros Hrep Hfin Hfresh Hdv Hdur Hd.
  pose proof (get_history_state_delta_trace w usage_sensor
                (window_start w finish_time duration)) as Htr.
  destruct (Apps._get_history_state_delta w usage_sensor
              (window_start w finish_time duration)) as [trh r] eqn:E.
  simpl in Hd, Htr. subst r trh. unfold window_start in E.
  unfold Apps.check_usage, getitem. rewrite Hrep. py_step.
  rewrite Hfin. py_step.
  destruct (Z.ltb_spec reported finish_time); [lia|].
  destruct (Z.ltb_spec (minutes 30) (reported - finish_time)); [lia|].
  destruct (minutes 10 <? reported - finish_time); py_step;
    rewrite Hdv; py_step; rewrite Hdur; py_step; by rewrite E.
Qed.






(** ** Exceptions *)

Lemma py_int_exc v tr e :
  py_int v = (tr, inl e) -> e = TypeError \/ e = ValueError.
Proof.
  destruct v; simpl; try (intros [= <- <-]; auto); try discriminate.
  destruct (parse_int s); simpl; [discriminate|]. intros [= <- <-]. auto.
Qed.

Lemma check_usage_history_raises self w data reported finish_time dv duration e :
  last_reported w = Some reported ->
  data !! "finish_time" = Some (VTime finish_time) ->
  finish_time <= reported <= finish_time + minutes 30 ->
  data !! "duration" = Some dv ->
  py_float dv = ret duration ->
  snd (Apps._get_history_state_delta w usage_sensor
         (window_start w finish_time duration)) = inl e ->
  snd (Apps.check_usage self w data) = inl e.
Proof.
  intros Hrep Hfin Hfresh Hdv Hdur Hd.
  destruct (Apps._get_history_state_delta w usage_sensor
              (window_start w finish_time duration)) as [trh r] eqn:E.
  simpl in Hd. subst r. unfold window_start in E.
  unfold Apps.check_usage, getitem. rewrite Hrep. py_step.
  rewrite Hfin. py_step.
  destruct (Z.ltb_spec reported finish_time); [lia|].
  destruct (Z.ltb_spec (minutes 30) (reported - finish_time)); [lia|].
  destruct (minutes 10 <? reported - finish_time); py_step;
    rewrite Hdv; py_step; rewrite Hdur; py_step; by rewrite E.
Qed.

(** C8 (as amended). The handlers catch nothing. [irrigation_complete]
    raises to its caller exactly on the payloads that are not well formed
    (no [entity_id]; for the configured program, no [run], a [run] that is
    not a dict, no [duration], or one [int] cannot convert), with
    [KeyError], [TypeError] or [ValueError]; a failed history query makes
    [check_usage] raise the same exception, with no timer armed. A handler
    that raises has armed no usage check and notified nothing. The only
    effect [irrigation_complete] has had by then is the timer of the valve
    check, which it arms before it reads the run, when a sprinkler entity
    is configured and the payload names the program. The event of another
    program is dropped without an effect. *)
Theorem errors_reach_the_caller :
  (forall self w et data,
      (exists e, snd (Apps.irrigation_complete self w et data) = inl e) <->
      well_formed (Apps.sequence_entity_id self) data = false) /\
  (forall self w et data e,
      snd (Apps.irrigation_complete self w et data) = inl e ->
      (e = KeyError "entity_id" \/ e = KeyError "run" \/
       e = KeyError "duration" \/ e = TypeError \/ e = ValueError) /\
      fst (Apps.irrigation_complete self w et data)
      = (if names_program (Apps.sequence_entity_id self) data
         then valve_timer self else []) /\
      armed CheckUsage (fst (Apps.irrigation_complete self w et data)) = None /\
      queries (fst (Apps.irrigation_complete self w et data)) = [] /\
      notifications (fst (Apps.irrigation_complete self w et data)) = []) /\
  (forall self w et data e,
      snd (Apps.irrigation_complete self w et data) = inl e ->
      names_program (Apps.sequence_entity_id self) data = true ->
      truthy (Apps.sprinkler_entity_id self) = true ->
      timers (fst (Apps.irrigation_complete self w et data))
      = [(CheckValve, 10, None)]) /\
  (forall self w data reported finish_time dv duration e,
      last_reported w = Some reported ->
      data !! "finish_time" = Some (VTime finish_time) ->
      finish_time <= reported <= finish_time + minutes 30 ->
      data !! "duration" = Some dv ->
      py_float dv = ret duration ->
      snd (Apps._get_history_state_delta w usage_sensor
             (window_start w finish_time duration)) = inl e ->
      snd (Apps.check_usage self w data) = inl e /\
      timers (fst (Apps.check_usage self w data)) = []) /\
  (forall self w data e,
      snd (Apps.check_usage self w data) = inl e ->
      armed CheckUsage (fst (Apps.check_usage self w data)) = None /\
      notifications (fst (Apps.check_usage self w data)) = []) /\
  (forall self w et data eid,
      data !! "entity_id" = Some eid ->
      eq_str eid (Apps.sequence_entity_id self) = false ->
      Apps.irrigation_complete self w et data = ([], inr data)).
Proof.
  split; [|split; [|split; [|split; [|split]]]].
  - intros self w et data. rewrite apps_irrigation_complete_cases.
    unfold well_formed, durationSeconds.
    assert (Hraise : forall (tr : Trace) (x : PyExc),
              (exists e, snd (tr, @inl PyExc (gmap string PyVal) x) = inl e)
              <-> false = false).
    { intros tr x. split; [done|]. intros _. by exists x. }
    assert (Hret : forall (tr : Trace) (d : gmap string PyVal),
              (exists e, snd (tr, @inr PyExc (gmap string PyVal) d) = inl e)
              <-> true = false).
    { intros tr d. split; [intros [e [= ]] | discriminate]. }
    destruct (data !! "entity_id") as [eid|]; [|apply Hraise].
    destruct (eq_str eid _); [|apply Hret].
    destruct (data !! "run") as [[| | | | |run]|]; try apply Hraise.
    destruct (run !! "duration") as [d|]; [|apply Hraise].
    destruct (py_int d) as [tr [e|secs]]; [apply Hraise|].
    destruct (Qltb _ _); apply Hret.
  - intros self w et data e. rewrite apps_irrigation_complete_cases.
    unfold names_program.
    destruct (data !! "entity_id") as [eid|]; [|intros [= <-]; auto 10].
    destruct (eq_str eid _); [|discriminate].
    pose proof (armed_valve_timer self) as Ha.
    pose proof (queries_valve_timer self) as Hq.
    pose proof (notifications_valve_timer self) as Hn.
    destruct (data !! "run") as [[| | | | |run]|];
      try (intros [= <-]; cbn [fst]; tauto).
    destruct (run !! "duration") as [d|]; [|intros [= <-]; cbn [fst]; tauto].
    destruct (py_int d) as [tr [e'|secs]] eqn:E.
    + intros [= <-]. cbn [fst]. destruct (py_int_exc _ _ _ E); tauto.
    + destruct (Qltb _ _); discriminate.
  - intros self w et data e. rewrite apps_irrigation_complete_cases.
    unfold names_program, valve_timer.
    destruct (data !! "entity_id") as [eid|]; [|discriminate].
    destruct (eq_str eid _); [|discriminate].
    intros He _ ->.
    destruct (data !! "run") as [[| | | | |run]|]; try done.
    destruct (run !! "duration") as [d|]; [|done].
    destruct (py_int d) as [tr [e'|secs]]; [done|].
    destruct (Qltb _ _); discriminate.
  - intros self w data reported finish_time dv duration e
      Hrep Hfin Hfresh Hdv Hdur Hd.
    rewrite (check_usage_history_fails self w data reported finish_time dv
               duration e Hrep Hfin Hfresh Hdv Hdur Hd).
    cbn [fst snd]. by destruct (minutes 10 <? reported - finish_time).
  - intros self w data e He.
    pose proof (check_usage_step self w data) as Hstep.
    cbv zeta in Hstep. by rewrite He in Hstep.
  - intros self w et data eid Hid Hne.
    rewrite apps_irrigation_complete_cases. by rewrite Hid, Hne.
Qed.

Lemma errors_reach_the_caller_witness :
  (exists e,
      snd (Apps.irrigation_complete app0 (world 0 0 []) finish_event
             (event c1_s1 (VStr "0:10:00"))) = inl e) /\
  (snd (Apps.check_usage app0
          (world (seconds 150) (seconds 120) ["unavailable"; "120.0"])
          (task 600 0)) = inl ValueError /\
   timers (fst (Apps.check_usage app0
                  (world (seconds 150) (seconds 120) ["unavailable"; "120.0"])
                  (task 600 0))) = []) /\
  timers (fst (Apps.irrigation_complete sprinkler_app0 (world 0 0 [])
                 finish_event (event c1_s1 (VStr "0:10:00"))))
  = [(CheckValve, 10, None)].
Proof.
  destruct errors_reach_the_caller as (Hwf & _ & Hvalve & Hhist & _ & _).
  split; [|split].
  - apply Hwf. reflexivity.
  - apply (Hhist app0 _ (task 600 0) (seconds 120) 0 (VInt 600) 600%Q);
      try reflexivity. vm_compute. split; discriminate.
  - apply (Hvalve sprinkler_app0 (world 0 0 []) finish_event
             (event c1_s1 (VStr "0:10:00")) ValueError); reflexivity.
Defined.

(** C8, as stated, fails: an event without [entity_id], an event whose
    duration is not a number, an empty history and a state that is not a
    number each end the handler with an exception; with a sprinkler entity
    configured, the valve check is armed by then. *)
Lemma malformed_event_counterexample :
  Apps.irrigation_complete app0 (world 0 0 []) finish_event ∅
  = ([], inl (KeyError "entity_id")) /\
  Apps.irrigation_complete app0 (world 0 0 []) finish_event
    (event c1_s1 (VStr "0:10:00")) = ([], inl ValueError) /\
  Apps.check_usage app0 (world (seconds 150) (seconds 120) []) (task 600 0)
  = ([sensor_read; GetHistory usage_sensor (seconds (-600))], inl IndexError) /\
  Apps.check_usage app0
    (world (seconds 150) (seconds 120) ["unavailable"; "120.0"]) (task 600 0)
  = ([sensor_read; GetHistory usage_sensor (seconds (-600))], inl ValueError) /\
  Apps.irrigation_complete sprinkler_app0 (world 0 0 []) finish_event
    (event c1_s1 (VStr "0:10:00"))
  = ([RunIn CheckValve 10 None], inl ValueError).
Proof.
  repeat split; vm_compute; reflexivity.
Qed.

(** ** Durations that are not positive *)

Lemma handed_over_duration w data secs :
  handed_over w data secs !! "duration" = Some (VInt secs) /\
  handed_over w data secs !! "finish_time" = Some (VTime (now_aware w)).
Proof.
  unfold handed_over. split.
  - rewrite lookup_insert_ne by done. by rewrite lookup_insert_eq.
  - by rewrite lookup_insert_eq.
Qed.

(** What [Apps.irrigation_complete] hands to the timer. *)
Lemma apps_handed_over self w et data delay data' :
  armed CheckUsage (fst (Apps.irrigation_complete self w et data))
  = Some (delay, Some data') ->
  exists secs,
    durationSeconds data = Some secs /\
    minDurationSeconds (Apps.min_duration self) <= secs /\
    delay = 30 /\ data' = handed_over w data secs.
Proof.
  rewrite apps_irrigation_complete_cases. unfold durationSeconds.
  pose proof (armed_valve_timer self) as Ha.
  destruct (data !! "entity_id") as [eid|]; [|discriminate].
  destruct (eq_str eid _); [|discriminate].
  destruct (data !! "run") as [[| | | | |run]|]; cbn [fst]; try congruence.
  destruct (run !! "duration") as [d|]; cbn [fst]; [|congruence].
  destruct (py_int d) as [tr [e|secs]]; cbn [fst]; [congruence|].
  destruct (Qltb _ _) eqn:Hlt; cbn [fst];
    rewrite armed_app_nil by done; cbn [armed]; [discriminate|].
  intros [= <- <-]. exists secs. repeat split.
  unfold minDurationSeconds.
  destruct (Z.lt_ge_cases secs (60 * Apps.min_duration self)) as [H|H];
    [|done].
  apply minutes_lt_iff in H. congruence.
Qed.

(** C9 (as amended). Classification does not check the duration. In
    [Apps], with a duration of zero the division raises
    [ZeroDivisionError]; with a negative one the division is made and its
    result is classified. The durations that are not positive are kept away
    by the filter of [irrigation_complete] when [min_duration] is positive.
    [Batch] divides nothing and classifies whatever the whole minutes are. *)
Theorem duration_is_not_validated :
  (forall self w data reported finish_time dv duration delta,
      last_reported w = Some reported ->
      data !! "finish_time" = Some (VTime finish_time) ->
      finish_time <= reported <= finish_time + minutes 30 ->
      data !! "duration" = Some dv ->
      py_float dv = ret duration ->
      (duration == 0)%Q ->
      snd (Apps._get_history_state_delta w usage_sensor
             (window_start w finish_time duration)) = inr delta ->
      snd (Apps.check_usage self w data) = inl ZeroDivisionError) /\
  (forall self w data finish_time duration delta,
      evaluation w data finish_time duration delta ->
      (duration < 0)%Q ->
      exists b lpm,
        snd (Apps.check_usage self w data) = inr b /\
        (Apps.outcome b = Some Confirmed \/ Apps.outcome b = Some Alert) /\
        flow b = Some lpm /\
        (lpm == inject_Z (trunc delta) / (duration / 60))%Q) /\
  (forall self w et data delay data',
      0 < Apps.min_duration self ->
      armed CheckUsage (fst (Apps.irrigation_complete self w et data))
      = Some (delay, Some data') ->
      exists secs, data' !! "duration" = Some (VInt secs) /\ 0 < secs) /\
  (forall self w data mins delta,
      Batch.run_minutes data = ret mins ->
      snd (Batch._get_history_state_delta w usage_sensor
             (Batch.delay_minutes self + mins)) = inr delta ->
      exists b, snd (Batch.check_usage self w data) = inr b /\
                batch_reading b = (round1 delta, mins)).
Proof.
  split; [|split; [|split]].
  - intros self w data reported finish_time dv duration delta
      Hrep Hfin Hfresh Hdv Hdur Hz Hd.
    destruct (Apps._get_history_state_delta w usage_sensor
                (window_start w finish_time duration)) as [trh r] eqn:E.
    simpl in Hd. subst r.
    rewrite (check_usage_zero self w data reported finish_time Hrep Hfin
               dv duration delta trh Hfresh Hdv Hdur E); [done|].
    apply Qeq_bool_iff. rewrite Hz. reflexivity.
  - intros self w data finish_time duration delta Hev Hneg.
    destruct (evaluation_run self w data _ _ _ Hev) as (Hb & _).
    cbv zeta in Hb. rewrite Hb.
    destruct (Qltb _ _); eexists _, _; (split; [done|]); cbn; split; auto;
      split; reflexivity.
  - intros self w et data delay data' Hmin Harm.
    apply apps_handed_over in Harm as (secs & _ & Hge & _ & ->).
    exists secs. split; [apply handed_over_duration|].
    unfold minDurationSeconds in Hge. lia.
  - intros self w data mins delta Hm Hd.
    rewrite (batch_check_usage_evaluates self w data mins delta Hm Hd).
    cbv zeta. destruct (Qltb _ _); by eexists.
Qed.

Lemma duration_is_not_validated_witness :
  snd (Apps.check_usage app0
         (world (seconds 150) (seconds 120) ["0.0"; "50.0"]) (task 0 0))
  = inl ZeroDivisionError /\
  (exists b lpm,
      snd (Apps.check_usage app0
             (world (seconds 150) (seconds 120) ["0.0"; "50.0"])
             (task (-600) 0)) = inr b /\
      (Apps.outcome b = Some Confirmed \/ Apps.outcome b = Some Alert) /\
      flow b = Some lpm /\
      (lpm == inject_Z (trunc 50) / (-600 / 60))%Q) /\
  exists secs,
    handed_over (world 0 0 []) (event c1_s1 (VInt 600)) 600 !! "duration"
    = Some (VInt secs) /\ 0 < secs.
Proof.
  destruct duration_is_not_validated as (Hzero & Hneg & Hfilter & _).
  split; [|split].
  - apply (Hzero app0 _ (task 0 0) (seconds 120) 0 (VInt 0) 0%Q 50%Q);
      try reflexivity. vm_compute. split; discriminate.
  - apply (Hneg app0 _ (task (-600) 0) 0 (-600)%Q 50%Q); [|reflexivity].
    exists (seconds 120), (VInt (-600)).
    repeat split; try reflexivity; try (vm_compute; discriminate).
  - apply (Hfilter app0 (world 0 0 []) finish_event
             (event c1_s1 (VInt 600)) 30); reflexivity.
Defined.

(** C9, as stated, fails: with a duration of -600 s the division is made
    and the run is classified (an alert at -5 liters per minute, notified);
    with a duration of 0 the error is that of the division. *)
Lemma negative_duration_counterexample :
  let w := world (seconds 150) (seconds 120) ["0.0"; "50.0"] in
  snd (Apps.check_usage app0 w (task (-600) 0))
  = inr (Apps.FoundBelow 50 (-3000 # 600)) /\
  notifications (fst (Apps.check_usage app0 w (task (-600) 0)))
  = [("notify/phone", "Irrigation Alert", UsageMismatch (_fmt_mins (-600)) 50)]
  /\
  Apps.check_usage app0 w (task 0 0)
  = ([sensor_read; GetHistory usage_sensor 0], inl ZeroDivisionError).
Proof.
  cbv zeta. repeat split; vm_compute; reflexivity.
Qed.

(** ** The window of the history query *)

Lemma window_start_eq w finish_time duration :
  window_start w finish_time duration
  = finish_time - timedelta_seconds duration - (now_aware w - now_naive w).
Proof. unfold window_start. lia. Qed.

Lemma check_usage_queries self w data finish_time secs :
  data !! "finish_time" = Some (VTime finish_time) ->
  data !! "duration" = Some (VInt secs) ->
  forall q, In q (queries (fst (Apps.check_usage self w data))) ->
            q = (usage_sensor, window_start w finish_time (inject_Z secs)).
Proof.
  intros Hfin Hdur q.
  destruct (check_usage_cases self w data)
    as [(e & _ & _ & _ & Hq) | (reported & ft & Hrep & Hfin' & Hcase)].
  - destruct Hq as [-> | (ft & dv & duration & Hfin' & Hdv & Hfl & ->)];
      [intros []|].
    rewrite Hfin in Hfin'. rewrite Hdur in Hdv.
    injection Hfin' as <-. injection Hdv as <-. injection Hfl as <-.
    by intros [<- | []].
  - rewrite Hfin in Hfin'. injection Hfin' as <-.
    destruct Hcase as [Hlt | [Hold | (Hfresh & dv & duration & delta & Hdv & Hfl & Hd & Hz)]].
    + rewrite (check_usage_recheck self w data _ _ Hrep Hfin Hlt).
      intros [].
    + rewrite (check_usage_too_old self w data _ _ Hrep Hfin Hold).
      intros [].
    + rewrite Hdur in Hdv. injection Hdv as <-. injection Hfl as <-.
      assert (Hev : evaluation w data finish_time (inject_Z secs) delta).
      { exists reported, (VInt secs). repeat (split; [done|]). split.
        - intros Hq. apply Qeq_bool_iff in Hq. congruence.
        - by rewrite Hd. }
      destruct (evaluation_run self w data _ _ _ Hev) as (_ & _ & _ & ->).
      by intros [<- | []].
Qed.

Lemma run_checks_queries self h data finish_time secs :
  data !! "finish_time" = Some (VTime finish_time) ->
  data !! "duration" = Some (VInt secs) ->
  forall fuel t q,
    In q (queries (fst (Apps.run_checks fuel self h t data))) ->
    q = (usage_sensor, finish_time - seconds secs).
Proof.
  intros Hfin Hdur. induction fuel as [|fuel IH]; intros t q; [intros []|].
  cbn [Apps.run_checks].
  pose proof (check_usage_step self (world_at h t) data) as Hstep.
  pose proof (check_usage_queries self (world_at h t) data _ _ Hfin Hdur)
    as Hq.
  rewrite window_start_eq, timedelta_whole_seconds in Hq.
  cbn [world_at now_aware now_naive] in Hq.
  replace (finish_time - seconds secs - (t - t))
    with (finish_time - seconds secs) in Hq by lia.
  cbv zeta in Hstep.
  destruct (Apps.check_usage self (world_at h t) data) as [tr [e|b]];
    cbn [fst snd] in Hstep, Hq; cbv beta iota.
  { apply Hq. }
  destruct b; cbv beta iota in Hstep.
  - destruct Hstep as (-> & _ & Hnone).
    specialize (IH (t + seconds 60)).
    destruct (Apps.run_checks fuel self h (t + seconds 60) data) as [tr' e].
    cbn [fst] in *. rewrite queries_app, Hnone. apply IH.
  - destruct Hstep as (-> & _). apply Hq.
  - destruct Hstep as (-> & _). apply Hq.
  - destruct Hstep as (-> & _). apply Hq.
Qed.

(** C10 (as amended). In [Apps] the one history query of an evaluation
    starts at [finish_time] minus the duration, shifted by the time between
    the two clock reads of [check_usage]; over the timers of one event,
    where the two reads are the same instant, every query starts at the
    time of the event minus the duration. No end of the window is passed.
    In [Batch] the query starts [delay_minutes] plus the whole minutes of
    the duration before the check, that is, for a check made on time, at
    the time of the event minus the duration rounded down to whole
    minutes. *)
Theorem history_window_start :
  (forall self w data finish_time duration delta,
      evaluation w data finish_time duration delta ->
      queries (fst (Apps.check_usage self w data))
      = [(usage_sensor,
          finish_time - timedelta_seconds duration
          - (now_aware w - now_naive w))]) /\
  (forall fuel self h t et data secs q,
      durationSeconds data = Some secs ->
      In q (queries (fst (Apps.run_event fuel self h t et data))) ->
      q = (usage_sensor, t - seconds secs)) /\
  (forall self w data secs,
      durationSeconds data = Some secs ->
      queries (fst (Batch.check_usage self w data))
      = [(usage_sensor,
          now_naive w - minutes (Batch.delay_minutes self + Z.quot secs 60))]) /\
  (forall self h t et data secs,
      programId data = Some (Batch.sequence_entity_id self) ->
      durationSeconds data = Some secs ->
      0 <= secs ->
      minDurationSeconds (Batch.min_duration self) <= secs ->
      queries (fst (Batch.run_event self h t et data))
      = [(usage_sensor, t - seconds (60 * Z.quot secs 60))]).
Proof.
  split; [|split; [|split]].
  - intros self w data finish_time duration delta Hev.
    destruct (evaluation_run self w data _ _ _ Hev) as (_ & _ & _ & ->).
    by rewrite window_start_eq.
  - intros fuel self h t et data secs q Hd. unfold Apps.run_event.
    destruct (apps_irrigation_complete_quiet self (world_at h t) et data)
      as [_ Hq].
    pose proof (apps_handed_over self (world_at h t) et data) as Hand.
    destruct (Apps.irrigation_complete self (world_at h t) et data) as [tr r].
    cbn [fst] in Hq, Hand.
    set (tv := match armed CheckValve tr with
               | Some (delay, _) =>
                   fst (Apps.check_valve self (world_at h (t + seconds delay)))
               | None => []
               end).
    assert (Hv : queries tv = []).
    { subst tv. destruct (armed CheckValve tr) as [[delay ?]|]; [|done].
      apply check_valve_quiet. }
    destruct (armed CheckUsage tr) as [[delay [data'|]]|].
    + destruct (Hand delay data' eq_refl) as (secs' & Hd' & _ & -> & ->).
      rewrite Hd in Hd'. injection Hd' as <-.
      destruct (handed_over_duration (world_at h t) data secs) as [Hdur Hfin].
      pose proof (run_checks_queries self h _ _ _ Hfin Hdur fuel
                    (t + seconds 30) q) as Hrun.
      destruct (Apps.run_checks fuel self h (t + seconds 30) _) as [tr' e].
      cbn [fst] in *. rewrite !queries_app, Hq, Hv. apply Hrun.
    + cbn [fst]. rewrite queries_app, Hq, Hv. intros [].
    + cbn [fst]. rewrite queries_app, Hq, Hv. intros [].
  - intros self w data secs Hd. by apply batch_check_usage_queries.
  - intros self h t et data secs Hid Hd Hpos Hge.
    destruct (batch_long_run self h t et data secs Hid Hd Hpos Hge) as [_ ->].
    cbv zeta. cbn [fst app queries].
    rewrite (batch_check_usage_queries _ _ _ _ Hd).
    cbn [world_at now_naive]. do 2 f_equal. unfold seconds, minutes. lia.
Qed.

Lemma history_window_start_witness :
  queries (fst (Batch.run_event batch0 (steady (seconds 20) ["0"; "120"]) 0
                  finish_event (event c1_s1 (VInt 659))))
  = [(usage_sensor, 0 - seconds (60 * Z.quot 659 60))] /\
  forall q,
    In q (queries (fst (Apps.run_event 3 app0 (steady (seconds 20) ["0"; "120"])
                          0 finish_event (event c1_s1 (VInt 659))))) ->
    q = (usage_sensor, 0 - seconds 659).
Proof.
  destruct history_window_start as (_ & Hevent & _ & Hbatch).
  split.
  - apply Hbatch; [reflexivity | reflexivity | lia | vm_compute; discriminate].
  - intros q. apply Hevent. reflexivity.
Defined.

(** C10, as stated, fails in [Batch]: for a run of 659 s that finished at
    time 0 the window starts 600 s before the finish, not 659 s. *)
Lemma whole_minutes_window_counterexample :
  queries (fst (Batch.run_event batch0 (steady (seconds 20) ["0"; "120"]) 0
                  finish_event (event c1_s1 (VInt 659))))
  = [(usage_sensor, seconds (-600))] /\
  seconds (-600) <> 0 - seconds 659.
Proof.
  split; [vm_compute; reflexivity | vm_compute; discriminate].
Qed.

(** ** The valve check *)

Lemma timers_app tr1 tr2 : timers (tr1 ++ tr2) = timers tr1 ++ timers tr2.
Proof.
  induction tr1 as [|[] tr1 IH]; simpl; [done|..]; by rewrite ?IH.
Qed.

Lemma armed_valve_after_timer self tr :
  armed CheckValve tr = None ->
  armed CheckValve (valve_timer self ++ tr)
  = if truthy (Apps.sprinkler_entity_id self) then Some (10, None) else None.
Proof. intros H. unfold valve_timer. by destruct (truthy _). Qed.

(** X3. [Apps.irrigation_complete] arms the valve check, 10 s ahead and
    without a payload, for every event that names the configured program
    when a sprinkler entity is set, whatever the rest of the payload: also
    for a run too short to be checked and for a payload it then fails on.
    For any other event, or without a sprinkler entity, it arms none. *)
Theorem valve_check_armed_first self w et data :
  armed CheckValve (fst (Apps.irrigation_complete self w et data))
  = if names_program (Apps.sequence_entity_id self) data
       && truthy (Apps.sprinkler_entity_id self)
    then Some (10, None) else None.
Proof.
  rewrite apps_irrigation_complete_cases. unfold names_program.
  destruct (data !! "entity_id") as [eid|]; [|done].
  destruct (eq_str eid _); [|done]. cbn [andb].
  pose proof (armed_valve_after_timer self []) as Hnil.
  rewrite app_nil_r in Hnil.
  destruct (data !! "run") as [[| | | | |run]|]; cbn [fst]; auto.
  destruct (run !! "duration") as [d|]; cbn [fst]; auto.
  destruct (py_int d) as [tr [e|secs]]; cbn [fst]; auto.
  destruct (Qltb _ _); cbn [fst]; by apply armed_valve_after_timer.
Qed.

(** X4. [Apps.check_valve] reads the state of the sprinkler entity once and
    logs an error exactly when that state is ['on']. It never raises, arms
    no timer, reads no history and calls no service. *)
Theorem check_valve_only_logs self w :
  snd (Apps.check_valve self w) = inr tt /\
  (In (Error (ValveOn (Apps.sprinkler_entity_id self)))
      (fst (Apps.check_valve self w))
   <-> valve_state w = Some "on") /\
  timers (fst (Apps.check_valve self w)) = [] /\
  queries (fst (Apps.check_valve self w)) = [] /\
  notifications (fst (Apps.check_valve self w)) = [].
Proof.
  unfold Apps.check_valve. py_step.
  destruct (valve_state w) as [s|].
  - destruct (String.eqb_spec s "on") as [->|Hne]; py_step.
    + repeat split; auto. intros _. right. by left.
    + repeat split; try done.
      * intros [H|[]]. discriminate H.
      * intros [= H]. contradiction.
  - repeat split; try done. intros [H|[]]. discriminate H.
Qed.

(** ** The name of the service *)

Lemma replace_dot_no_dot s : has_dot (replace_dot s) = false.
Proof.
  induction s as [|c s IH]; [done|]. simpl.
  destruct (Ascii.eqb_spec c "."); [done|].
  destruct (Ascii.eqb_spec c "."); [contradiction|]. by rewrite IH.
Qed.

Lemma replace_dot_length s : String.length (replace_dot s) = String.length s.
Proof. induction s as [|c s IH]; [done|]. simpl. by rewrite IH. Qed.

Lemma replace_dot_id s : has_dot s = false -> replace_dot s = s.
Proof.
  induction s as [|c s IH]; [done|]. simpl.
  destruct (Ascii.eqb_spec c "."); [discriminate|].
  intros H. by rewrite IH.
Qed.

(** X5. The service a check calls is the configured action with every dot
    turned into a slash: it holds no dot, is as long as the action, and is
    the action itself when that holds no dot. *)
Theorem service_name_has_no_dot :
  (forall self w data service title m,
      In (service, title, m) (notifications (fst (Apps.check_usage self w data))) ->
      has_dot service = false /\
      exists a,
        (Apps.notify_ok_action self = Some a \/
         Apps.notify_alert_action self = Some a) /\
        String.length service = String.length a /\
        (has_dot a = false -> service = a)) /\
  (forall self w data service title m,
      In (service, title, m) (notifications (fst (Batch.check_usage self w data))) ->
      has_dot service = false /\
      exists a,
        Batch.alert_notify_action self = Some a /\
        String.length service = String.length a /\
        (has_dot a = false -> service = a)).
Proof.
  split.
  - intros self w data service title m Hin.
    pose proof (check_usage_step self w data) as Hstep. cbv zeta in Hstep.
    destruct (snd (Apps.check_usage self w data)) as [e|b].
    { destruct Hstep as [_ Hn]. rewrite Hn in Hin. destruct Hin. }
    destruct b.
    + destruct Hstep as (_ & Hn & _). rewrite Hn in Hin. destruct Hin.
    + destruct Hstep as (_ & Hn & _). rewrite Hn in Hin. destruct Hin.
    + destruct Hstep as (_ & _ & Hsent).
      destruct (Hsent _ Hin) as (_ & a & Ha & _ & ->).
      split; [apply replace_dot_no_dot|]. exists a.
      split; [by left|]. split; [apply replace_dot_length|].
      apply replace_dot_id.
    + destruct Hstep as (_ & _ & Hsent).
      destruct (Hsent _ Hin) as (_ & a & Ha & _ & ->).
      split; [apply replace_dot_no_dot|]. exists a.
      split; [by right|]. split; [apply replace_dot_length|].
      apply replace_dot_id.
  - intros self w data service title m Hin.
    destruct (batch_check_usage_notifications self w data) as [_ Hsent].
    destruct (Hsent _ Hin) as (b & _ & _ & _ & a & Ha & _ & ->).
    split; [apply replace_dot_no_dot|]. exists a.
    split; [done|]. split; [apply replace_dot_length|]. apply replace_dot_id.
Qed.

Lemma service_name_has_no_dot_witness :
  has_dot "notify/phone" = false /\
  exists a,
    (Apps.notify_ok_action app0 = Some a \/
     Apps.notify_alert_action app0 = Some a) /\
    String.length "notify/phone" = String.length a /\
    (has_dot a = false -> "notify/phone" = a).
Proof.
  destruct service_name_has_no_dot as [Happs _].
  apply (Happs app0 (world (seconds 150) (seconds 120) ["1000.0"; "1120.0"])
           (task 600 0) "notify/phone" "Irrigation OK"
           (ExpectedUsage 120 (_fmt_mins 600))).
  vm_compute. left. reflexivity.
Defined.

(** ** The history delta *)

Lemma last_cons_app {A} (x : A) (mid : list A) (y : A) :
  last (x :: mid ++ [y]) = Some y.
Proof.
  revert x. induction mid as [|z mid IH]; intros x; [done|].
  change (last (x :: (z :: mid) ++ [y])) with (last (z :: mid ++ [y])).
  apply IH.
Qed.

Lemma apps_history_error w e s x :
  snd (Apps._get_history_state_delta w e s) = inl x -> history_error x.
Proof.
  unfold Apps._get_history_state_delta, history_error. py_step.
  destruct (history w s) as [hist|]; [|intros [= <-]; auto].
  destruct (hist !! 0%nat) as [h0|]; py_step; [|intros [= <-]; auto].
  destruct (head h0); py_step; [|intros [= <-]; auto].
  destruct (parse_float _); py_step; [|intros [= <-]; auto].
  destruct (last h0); py_step; [|intros [= <-]; auto].
  destruct (parse_float _); py_step; [discriminate|intros [= <-]; auto].
Qed.

Lemma apps_delta_ends w e s r0 mid r1 rest :
  history w s = Some ((r0 :: mid ++ [r1]) :: rest) ->
  Apps._get_history_state_delta w e s
  = (emit (GetHistory e s) ;;
     start_val <- lift_opt ValueError (parse_float (state r0)) ;;
     end_val <- lift_opt ValueError (parse_float (state r1)) ;;
     ret (end_val - start_val)%Q).
Proof.
  intros H. unfold Apps._get_history_state_delta. rewrite H.
  cbn [bind ret emit lift_opt app lookup list_lookup head].
  destruct (parse_float (state r0));
    cbn [bind ret raise emit lift_opt app lookup list_lookup]; [|done].
  rewrite last_cons_app. cbn [bind ret raise lift_opt app].
  by destruct (parse_float (state r1)).
Qed.

(** X6. The delta depends on the history only through the state of the
    first row and the state of the last row of its first list. Two hosts
    whose histories agree on these two states get the same result, the same
    number or the same exception, whatever the rows between them, the
    lists of other entities and the other fields of the rows hold. So it is
    in [Batch], for two hosts that read the same clock. *)
Theorem delta_reads_first_and_last :
  (forall w1 w2 e s r0 r0' mid1 mid2 r1 r1' rest1 rest2,
      history w1 s = Some ((r0 :: mid1 ++ [r1]) :: rest1) ->
      history w2 s = Some ((r0' :: mid2 ++ [r1']) :: rest2) ->
      state r0 = state r0' ->
      state r1 = state r1' ->
      Apps._get_history_state_delta w1 e s
      = Apps._get_history_state_delta w2 e s) /\
  (forall w1 w2 e m r0 r0' mid1 mid2 r1 r1' rest1 rest2,
      now_naive w1 = now_naive w2 ->
      history w1 (now_naive w1 - minutes m)
      = Some ((r0 :: mid1 ++ [r1]) :: rest1) ->
      history w2 (now_naive w2 - minutes m)
      = Some ((r0' :: mid2 ++ [r1']) :: rest2) ->
      state r0 = state r0' ->
      state r1 = state r1' ->
      Batch._get_history_state_delta w1 e m
      = Batch._get_history_state_delta w2 e m).
Proof.
  split.
  - intros w1 w2 e s r0 r0' mid1 mid2 r1 r1' rest1 rest2 H1 H2 E0 E1.
    rewrite (apps_delta_ends w1 e s _ _ _ _ H1).
    rewrite (apps_delta_ends w2 e s _ _ _ _ H2).
    by rewrite E0, E1.
  - intros w1 w2 e m r0 r0' mid1 mid2 r1 r1' rest1 rest2 Hn H1 H2 E0 E1.
    rewrite !batch_history_is_apps.
    rewrite (apps_delta_ends w1 e _ _ _ _ _ H1).
    rewrite (apps_delta_ends w2 e _ _ _ _ _ H2).
    by rewrite Hn, E0, E1.
Qed.

Lemma delta_reads_first_and_last_witness :
  Apps._get_history_state_delta
    (world (seconds 150) (seconds 120) ["10.5"; "unavailable"; "31"])
    usage_sensor (seconds (-600))
  = Apps._get_history_state_delta
      (world (seconds 900) (seconds 800) ["10.5"; "12"; "17.5"; "31"])
      usage_sensor (seconds (-600)).
Proof.
  destruct delta_reads_first_and_last as [H _].
  apply (H _ _ _ _
           {| state := "10.5"; last_changed := 0 |}
           {| state := "10.5"; last_changed := 0 |}
           [{| state := "unavailable"; last_changed := 0 |}]
           [{| state := "12"; last_changed := 0 |};
            {| state := "17.5"; last_changed := 0 |}]
           {| state := "31"; last_changed := 0 |}
           {| state := "31"; last_changed := 0 |} [] []); reflexivity.
Defined.

(** ** From the event handler to the check *)

Lemma batch_armed self et data delay data' :
  armed CheckUsage (fst (Batch.irrigation_complete self et data))
  = Some (delay, Some data') ->
  data' = data /\ delay = Batch.delay_minutes self * 60 /\
  exists mins, Batch.run_minutes data = ret mins /\
               Batch.min_duration self <= mins.
Proof.
  unfold Batch.irrigation_complete, getitem.
  destruct (data !! "entity_id") as [eid|]; py_step; [|discriminate].
  destruct (eq_str eid _); [|discriminate].
  destruct (Batch.run_minutes data) as [trm [e|mins]] eqn:Hm;
    pose proof (batch_run_minutes_trace _ _ _ Hm) as ->; py_step;
    [discriminate|].
  destruct (Z.ltb_spec mins (Batch.min_duration self)); cbn [fst armed];
    [discriminate|].
  intros [= <- <-]. repeat split. by exists mins.
Qed.

(** X8. In [Batch] the check reads the duration from the payload again;
    for a check that [irrigation_complete] armed this cannot fail, the
    minutes are at least [min_duration], and the only exceptions left are
    those of the history read. *)
Theorem batch_armed_check_reads_the_same_minutes self et data delay data' :
  armed CheckUsage (fst (Batch.irrigation_complete self et data))
  = Some (delay, Some data') ->
  exists mins,
    Batch.run_minutes data' = ret mins /\
    Batch.min_duration self <= mins /\
    forall w e, snd (Batch.check_usage self w data') = inl e -> history_error e.
Proof.
  intros Harm.
  apply batch_armed in Harm as (-> & _ & mins & Hm & Hge).
  exists mins. do 2 (split; [done|]). intros w e He.
  destruct (Batch._get_history_state_delta w usage_sensor
              (Batch.delay_minutes self + mins)) as [trh [x|delta]] eqn:Hd.
  - unfold Batch.check_usage in He. rewrite Hm in He.
    cbn [bind ret] in He. rewrite Hd in He. injection He as <-.
    rewrite batch_history_is_apps in Hd.
    apply (apps_history_error w usage_sensor
             (now_naive w - minutes (Batch.delay_minutes self + mins))).
    by rewrite Hd.
  - rewrite (batch_check_usage_evaluates self w data mins delta Hm) in He
      by (by rewrite Hd).
    cbv zeta in He. by destruct (Qltb _ _).
Qed.

Lemma batch_armed_check_reads_the_same_minutes_witness :
  exists mins,
    Batch.run_minutes (event c1_s1 (VStr "659")) = ret mins /\
    Batch.min_duration batch0 <= mins /\
    forall w e,
      snd (Batch.check_usage batch0 w (event c1_s1 (VStr "659"))) = inl e ->
      history_error e.
Proof.
  apply (batch_armed_check_reads_the_same_minutes batch0 finish_event
           (event c1_s1 (VStr "659")) 600).
  reflexivity.
Defined.

(** X9. [Apps.irrigation_complete] writes to the payload only when it arms
    the check, and then only the keys [duration] and [finish_time]: the
    integer it read from the run and the time of the handling. Every other
    key keeps its value, so the run reads the same from the payload
    afterwards, and the timer holds the payload as the caller now sees
    it. *)
Theorem payload_gets_two_keys self w et data tr d :
  Apps.irrigation_complete self w et data = (tr, inr d) ->
  (forall k, k <> "duration" -> k <> "finish_time" -> d !! k = data !! k) /\
  durationSeconds d = durationSeconds data /\
  (armed CheckUsage tr = None -> d = data) /\
  (forall delay data',
      armed CheckUsage tr = Some (delay, Some data') ->
      data' = d /\
      d !! "finish_time" = Some (VTime (now_aware w)) /\
      exists secs, d !! "duration" = Some (VInt secs) /\
                   durationSeconds data = Some secs).
Proof.
  intros Hrun.
  pose proof (apps_handed_over self w et data) as Hand.
  rewrite Hrun in Hand. cbn [fst] in Hand.
  assert (Hcase : (d = data /\ armed CheckUsage tr = None) \/
                  exists secs, d = handed_over w data secs /\
                               armed CheckUsage tr = Some (30, Some d)).
  { rewrite apps_irrigation_complete_cases in Hrun.
    pose proof (armed_valve_timer self) as Ha.
    destruct (data !! "entity_id") as [eid|]; [|discriminate].
    destruct (eq_str eid _); [|injection Hrun as <- <-; by left].
    destruct (data !! "run") as [[| | | | |run]|]; try discriminate.
    destruct (run !! "duration") as [dv|]; [|discriminate].
    destruct (py_int dv) as [tri [e|secs]]; [discriminate|].
    destruct (Qltb _ _); injection Hrun as <- <-.
    - left. split; [done|]. by rewrite armed_app_nil.
    - right. exists secs. split; [done|]. by rewrite armed_app_nil. }
  destruct Hcase as [[-> Hnone] | (secs & -> & Hsome)].
  - split; [done|]. split; [done|]. split; [done|].
    intros delay data' H. congruence.
  - destruct (handed_over_duration w data secs) as [Hdur Hfin].
    split; [|split; [|split]].
    + intros k Hk1 Hk2. unfold handed_over.
      by rewrite !lookup_insert_ne.
    + unfold durationSeconds, handed_over.
      by rewrite !lookup_insert_ne.
    + intros H. congruence.
    + intros delay data' H. rewrite Hsome in H. injection H as <- <-.
      split; [done|]. split; [done|].
      destruct (Hand 30 _ Hsome) as (secs' & Hsecs & _ & _ & Heq).
      exists secs'. split; [|done].
      apply (f_equal (fun m : gmap string PyVal => m !! "duration")) in Heq.
      rewrite Hdur in Heq.
      destruct (handed_over_duration w data secs') as [Hdur' _].
      rewrite Hdur' in Heq. injection Heq as <-. exact Hdur.
Qed.

Lemma payload_gets_two_keys_witness :
  handed_over (world (seconds 7) (seconds 7) []) (event c1_s1 (VInt 600)) 600
    !! "entity_id"
  = event c1_s1 (VInt 600) !! "entity_id".
Proof.
  destruct (payload_gets_two_keys app0 (world (seconds 7) (seconds 7) [])
              finish_event (event c1_s1 (VInt 600))
              [Log BeginningChecks;
               RunIn CheckUsage 30
                 (Some (handed_over (world (seconds 7) (seconds 7) [])
                          (event c1_s1 (VInt 600)) 600))]
              (handed_over (world (seconds 7) (seconds 7) [])
                 (event c1_s1 (VInt 600)) 600) eq_refl) as [H _].
  apply H; discriminate.
Defined.

(** ** One task, one history read *)

Lemma check_usage_one_query self w data :
  let run := Apps.check_usage self w data in
  (length (queries (fst run)) <= 1)%nat /\
  (notifications (fst run) <> [] -> length (queries (fst run)) = 1%nat) /\
  (armed CheckUsage (fst run) <> None ->
   queries (fst run) = [] /\ notifications (fst run) = []).
Proof.
  cbv zeta.
  destruct (check_usage_cases self w data)
    as [(e & He & Ha & Hn & Hq) | (reported & finish_time & Hrep & Hfin & Hcase)].
  { rewrite Ha, Hn. split; [|split; [done|done]].
    destruct Hq as [-> | (ft & dv & duration & _ & _ & _ & ->)]; simpl; lia. }
  destruct Hcase as [Hlt | [Hold | (Hfresh & dv & duration & delta & Hdv & Hdur & Hd & Hz)]].
  - rewrite (check_usage_recheck self w data _ _ Hrep Hfin Hlt).
    unfold sensor_read. simpl. split; [lia|]. by split.
  - rewrite (check_usage_too_old self w data _ _ Hrep Hfin Hold).
    unfold sensor_read. simpl. split; [lia|]. by split.
  - assert (Hev : evaluation w data finish_time duration delta).
    { exists reported, dv. repeat (split; [done|]). split.
      - intros Hq. apply Qeq_bool_iff in Hq. congruence.
      - by rewrite Hd. }
    destruct (evaluation_run self w data _ _ _ Hev) as (_ & _ & Ha & Hq).
    rewrite Ha, Hq. simpl. split; [lia|]. by split.
Qed.

Lemma run_checks_one_query fuel self h t data :
  let run := Apps.run_checks fuel self h t data in
  (length (queries (fst run)) <= 1)%nat /\
  (notifications (fst run) <> [] -> length (queries (fst run)) = 1%nat).
Proof.
  cbv zeta. revert t data. induction fuel as [|fuel IH]; intros t data.
  { simpl. split; [lia|done]. }
  cbn [Apps.run_checks].
  pose proof (check_usage_one_query self (world_at h t) data) as Hstep.
  cbv zeta in Hstep.
  destruct (Apps.check_usage self (world_at h t) data) as [tr [e|b]];
    cbn [fst snd] in Hstep; destruct Hstep as (Hlen & Hnot & Harm);
    cbv beta iota; cbn [fst snd]; [by split|].
  destruct (armed CheckUsage tr) as [[delay [data'|]]|]; cbn [fst snd];
    try by split.
  destruct Harm as [Hq Hn]; [done|].
  specialize (IH (t + seconds delay) data').
  destruct (Apps.run_checks fuel self h (t + seconds delay) data') as [tr' e].
  cbn [fst snd] in *. by rewrite queries_app, notifications_app, Hq, Hn.
Qed.

(** X10. Over all the timers of one finish event, however often the check
    is repeated, [Apps] reads the history at most once; and whenever it
    notifies, it has read the history exactly once. *)
Theorem one_history_read_per_event fuel self h t et data :
  let run := Apps.run_event fuel self h t et data in
  (length (queries (fst run)) <= 1)%nat /\
  (notifications (fst run) <> [] -> length (queries (fst run)) = 1%nat).
Proof.
  unfold Apps.run_event.
  destruct (apps_irrigation_complete_quiet self (world_at h t) et data)
    as [Hn Hq].
  destruct (Apps.irrigation_complete self (world_at h t) et data) as [tr r].
  cbn [fst] in Hn, Hq.
  set (tv := match armed CheckValve tr with
             | Some (delay, _) =>
                 fst (Apps.check_valve self (world_at h (t + seconds delay)))
             | None => []
             end).
  assert (Hv : notifications tv = [] /\ queries tv = []).
  { subst tv. destruct (armed CheckValve tr) as [[delay ?]|]; [|done].
    apply check_valve_quiet. }
  destruct Hv as [Hvn Hvq].
  destruct (armed CheckUsage tr) as [[delay [data'|]]|].
  - pose proof (run_checks_one_query fuel self h (t + seconds delay) data')
      as Hrun. cbv zeta in Hrun.
    destruct (Apps.run_checks fuel self h (t + seconds delay) data')
      as [tr' e]. cbv zeta. cbn [fst snd] in *.
    by rewrite !queries_app, !notifications_app, Hn, Hq, Hvn, Hvq.
  - cbv zeta. cbn [fst].
    rewrite queries_app, notifications_app, Hn, Hq, Hvn, Hvq. simpl.
    split; [lia|done].
  - cbv zeta. cbn [fst].
    rewrite queries_app, notifications_app, Hn, Hq, Hvn, Hvq. simpl.
    split; [lia|done].
Qed.

Lemma one_history_read_per_event_witness :
  length (queries (fst (Apps.run_event 5 app0 (catching_up ["0"; "120"]) 0
                          finish_event (event c1_s1 (VInt 600))))) = 1%nat.
Proof.
  apply (one_history_read_per_event 5 app0 (catching_up ["0"; "120"]) 0
           finish_event (event c1_s1 (VInt 600))).
  vm_compute. discriminate.
Defined.

(** ** The valve does not decide the check *)

Lemma check_valve_timers self w : timers (fst (Apps.check_valve self w)) = [].
Proof.
  by destruct (check_valve_trace self w) as (rest & -> & [-> | ->]).
Qed.

Lemma check_usage_with_valve self h v t data :
  Apps.check_usage self (world_at (with_valve h v) t) data
  = Apps.check_usage self (world_at h t) data.
Proof. reflexivity. Qed.

Lemma run_checks_with_valve fuel self h v t data :
  Apps.run_checks fuel self (with_valve h v) t data
  = Apps.run_checks fuel self h t data.
Proof.
  revert t data. induction fuel as [|fuel IH]; intros t data; [done|].
  cbn [Apps.run_checks]. rewrite check_usage_with_valve.
  destruct (Apps.check_usage self (world_at h t) data) as [tr [e|b]]; [done|].
  destruct (armed CheckUsage tr) as [[delay [data'|]]|]; try done.
  by rewrite IH.
Qed.

(** X11. What the valve reports changes nothing for the check: with any
    other valve the task of an event ends the same way, with the same
    history reads, the same notifications and the same timers. *)
Theorem valve_does_not_decide fuel self h v t et data :
  let run := Apps.run_event fuel self h t et data in
  let run' := Apps.run_event fuel self (with_valve h v) t et data in
  snd run' = snd run /\
  queries (fst run') = queries (fst run) /\
  notifications (fst run') = notifications (fst run) /\
  timers (fst run') = timers (fst run).
Proof.
  cbv zeta. unfold Apps.run_event.
  change (Apps.irrigation_complete self (world_at (with_valve h v) t) et data)
    with (Apps.irrigation_complete self (world_at h t) et data).
  destruct (Apps.irrigation_complete self (world_at h t) et data) as [tr r].
  assert (Hv : forall w,
    match armed CheckValve tr with
    | Some (delay, _) =>
        let tv := fst (Apps.check_valve self (w delay)) in
        queries tv = [] /\ notifications tv = [] /\ timers tv = []
    | None => True
    end).
  { intros w. destruct (armed CheckValve tr) as [[delay ?]|]; [|done].
    cbv zeta. destruct (check_valve_quiet self (w delay)) as [-> ->].
    by rewrite check_valve_timers. }
  pose proof (Hv (fun delay => world_at h (t + seconds delay))) as Hv1.
  pose proof (Hv (fun delay => world_at (with_valve h v) (t + seconds delay)))
    as Hv2.
  destruct (armed CheckValve tr) as [[dv ?]|];
    cbv zeta in Hv1, Hv2;
    [destruct Hv1 as (Hq1 & Hn1 & Ht1); destruct Hv2 as (Hq2 & Hn2 & Ht2)|];
    (destruct (armed CheckUsage tr) as [[delay [data'|]]|];
     [ rewrite run_checks_with_valve;
       destruct (Apps.run_checks fuel self h (t + seconds delay) data')
     | | ]);
    cbn [fst snd];
    rewrite ?queries_app, ?notifications_app, ?timers_app,
      ?Hq1, ?Hn1, ?Ht1, ?Hq2, ?Hn2, ?Ht2; done.
Qed.

(** ** More water, same verdict or better *)

Lemma trunc_floor (q : Q) : (0 <= q)%Q -> trunc q = Qfloor q.
Proof.
  destruct q as [n d]. unfold Qle, trunc, Qfloor. simpl. intros H.
  apply Z.quot_div_nonneg; lia.
Qed.

Lemma trunc_ceiling (q : Q) : (q <= 0)%Q -> trunc q = Qceiling q.
Proof.
  destruct q as [n d]. unfold Qle, trunc, Qceiling, Qfloor. simpl. intros H.
  rewrite <- (Z.opp_involutive n) at 1.
  rewrite Z.quot_opp_l by lia. f_equal.
  apply Z.quot_div_nonneg; lia.
Qed.

Lemma trunc_mono (q1 q2 : Q) : (q1 <= q2)%Q -> trunc q1 <= trunc q2.
Proof.
  intros Hle.
  destruct (Qlt_le_dec q1 0) as [H1|H1]; destruct (Qlt_le_dec q2 0) as [H2|H2].
  - rewrite !trunc_ceiling by lra. by apply Qceiling_resp_le.
  - rewrite trunc_ceiling, trunc_floor by lra.
    assert (Qceiling q1 <= Qceiling 0) by (apply Qceiling_resp_le; lra).
    assert (Qfloor 0 <= Qfloor q2) by (by apply Qfloor_resp_le).
    change (Qceiling 0) with 0 in *. change (Qfloor 0) with 0 in *. lia.
  - lra.
  - rewrite !trunc_floor by lra. by apply Qfloor_resp_le.
Qed.

Lemma flow_mono (t1 t2 : Z) (duration : Q) :
  (0 < duration)%Q -> t1 <= t2 ->
  (inject_Z t1 / (duration / 60) <= inject_Z t2 / (duration / 60))%Q.
Proof.
  intros Hd Ht. unfold Qdiv at 1 3.
  apply Qmult_le_compat_r; [by rewrite <- Zle_Qle|].
  apply Qinv_le_0_compat, Qlt_le_weak. by apply duration_minutes_pos.
Qed.

(** X12. Over a run of the same positive duration, more water never turns
    a confirmation into an alert: if an evaluation ends in the
    expected-usage branch, so does every evaluation whose delta is not
    smaller. *)
Theorem more_water_stays_confirmed
    self w1 data1 finish1 w2 data2 finish2 duration delta1 delta2 b1 :
  evaluation w1 data1 finish1 duration delta1 ->
  evaluation w2 data2 finish2 duration delta2 ->
  (0 < duration)%Q ->
  (delta1 <= delta2)%Q ->
  snd (Apps.check_usage self w1 data1) = inr b1 ->
  Apps.outcome b1 = Some Confirmed ->
  exists b2, snd (Apps.check_usage self w2 data2) = inr b2 /\
             Apps.outcome b2 = Some Confirmed.
Proof.
  intros Hev1 Hev2 Hd Hle Hrun1 Hb1.
  destruct (evaluation_run self w1 data1 _ _ _ Hev1) as (H1 & _).
  destruct (evaluation_run self w2 data2 _ _ _ Hev2) as (H2 & _).
  cbv zeta in H1, H2. rewrite H1 in Hrun1. rewrite H2.
  pose proof (flow_mono _ _ duration Hd (trunc_mono _ _ Hle)) as Hflow.
  destruct (Qltb _ (inject_Z (trunc delta1) / _)) eqn:Hlt1.
  2:{ injection Hrun1 as <-. discriminate Hb1. }
  apply Qltb_lt in Hlt1.
  assert (Hlt2 : Qltb (inject_Z (Apps.min_expected_lpm self))
                   (inject_Z (trunc delta2) / (duration / 60)) = true).
  { apply Qltb_lt. by apply Qlt_le_trans with (2 := Hflow). }
  rewrite Hlt2. by eexists.
Qed.

Lemma more_water_stays_confirmed_witness :
  exists b2,
    snd (Apps.check_usage app0
           (world (seconds 150) (seconds 120) ["1000.0"; "1130.7"])
           (task 600 0)) = inr b2 /\
    Apps.outcome b2 = Some Confirmed.
Proof.
  apply (more_water_stays_confirmed app0
           (world (seconds 150) (seconds 120) ["1000.0"; "1120.0"])
           (task 600 0) 0
           (world (seconds 150) (seconds 120) ["1000.0"; "1130.7"])
           (task 600 0) 0 600%Q 120%Q (1307 # 10)%Q
           (Apps.FoundExpected 120 (7200 # 600))).
  - exists (seconds 120), (VInt 600).
    repeat split; try reflexivity; try (vm_compute; discriminate).
  - exists (seconds 120), (VInt 600).
    repeat split; try reflexivity; try (vm_compute; discriminate).
  - reflexivity.
  - vm_compute. discriminate.
  - vm_compute. reflexivity.
  - reflexivity.
Defined.

(** ** The warning about an old report *)

(** X13. An evaluation logs that the report is old exactly when the report
    came more than 10 minutes after the finish; the age of the report
    does not change the branch, which the delta and the duration decide. *)
Theorem old_report_is_only_logged self w data reported finish_time duration delta :
  last_reported w = Some reported ->
  evaluation w data finish_time duration delta ->
  let run := Apps.check_usage self w data in
  let lpm := (inject_Z (trunc delta) / (duration / 60))%Q in
  ((exists x, In (Log (LateReport x)) (fst run)) <->
   finish_time + minutes 10 < reported) /\
  snd run = inr (if Qltb (inject_Z (Apps.min_expected_lpm self)) lpm
                 then Apps.FoundExpected (trunc delta) lpm
                 else Apps.FoundBelow (trunc delta) lpm).
Proof.
  intros Hrep Hev run lpm. subst run.
  split; [|by destruct (evaluation_run self w data _ _ _ Hev) as (Hb & _)].
  destruct Hev as (reported' & dv & Hrep' & Hfin & Hfresh & Hdv & Hdur & Hnz & Hdelta).
  rewrite Hrep in Hrep'. injection Hrep' as <-.
  pose proof (get_history_state_delta_trace w usage_sensor
                (window_start w finish_time duration)) as Htr.
  destruct (Apps._get_history_state_delta w usage_sensor
              (window_start w finish_time duration)) as [trh r] eqn:E.
  simpl in Htr, Hdelta. subst trh r.
  assert (Hz : Qeq_bool (duration / 60) 0 = false).
  { destruct (Qeq_bool (duration / 60) 0) eqn:Hq; [|done].
    apply Qeq_bool_iff in Hq. contradiction. }
  rewrite (check_usage_evaluates self w data reported finish_time Hrep Hfin
             dv duration delta _ Hfresh Hdv Hdur E Hz).
  cbv zeta. unfold sensor_read, call_if.
  destruct (Z.ltb_spec (minutes 10) (reported - finish_time)) as [Hlate|Hlate].
  - split; [intros _; lia|]. intros _. eexists.
    destruct (Qltb _ _); cbn [fst app In]; right; left; reflexivity.
  - split; [|intros H; lia]. intros [x Hin]. exfalso.
    destruct (Qltb _ _); cbn [fst app In] in Hin;
      [destruct (Apps.notify_ok_action self) as [a|]
      |destruct (Apps.notify_alert_action self) as [a|]];
      try destruct (truthy (Some a)); cbn [In] in Hin;
      repeat (destruct Hin as [Hin|Hin]; try discriminate Hin); done.
Qed.

Lemma old_report_is_only_logged_witness :
  (exists x,
      In (Log (LateReport x))
        (fst (Apps.check_usage app0
                (world (seconds 900) (seconds 660) ["1000.0"; "1120.0"])
                (task 600 0)))) <->
  0 + minutes 10 < seconds 660.
Proof.
  apply (old_report_is_only_logged app0
           (world (seconds 900) (seconds 660) ["1000.0"; "1120.0"])
           (task 600 0) (seconds 660) 0 600%Q 120%Q eq_refl).
  exists (seconds 660), (VInt 600).
  repeat split; try reflexivity; try (vm_compute; discriminate).
Defined.

(** ** The timers of the check *)

Lemma check_usage_timers self w data :
  timers (fst (Apps.check_usage self w data))
  = match snd (Apps.check_usage self w data) with
    | inr Apps.Recheck => [(CheckUsage, 60, Some data)]
    | _ => []
    end.
Proof.
  unfold Apps.check_usage, getitem, truediv. py_step.
  destruct (last_reported w) as [reported|]; py_step; [|done].
  destruct (data !! "finish_time") as [[| | | |ft|]|]; py_step; try done.
  destruct (reported <? ft); py_step; [done|].
  destruct (minutes 30 <? reported - ft); py_step; [done|].
  destruct (minutes 10 <? reported - ft); py_step;
    (destruct (data !! "duration") as [dv|]; py_step; [|done];
     destruct (py_float dv) as [trf [x|duration]] eqn:Hf;
     pose proof (py_float_trace _ _ _ Hf) as ->; py_step; [done|];
     match goal with
     | |- context [Apps._get_history_state_delta w usage_sensor ?s] =>
         pose proof (get_history_state_delta_trace w usage_sensor s) as Htr;
         destruct (Apps._get_history_state_delta w usage_sensor s)
           as [trh [x|delta]]; simpl in Htr; subst trh; py_step; [done|]
     end;
     destruct (Qeq_bool _ _); py_step; [done|];
     destruct (Qltb _ _); py_step;
     [destruct (Apps.notify_ok_action self) as [a|]
     |destruct (Apps.notify_alert_action self) as [a|]]; py_step;
     try destruct (truthy (Some a)); py_step; done).
Qed.

(** X14. [Apps.check_usage] arms a timer only when the sensor has not yet
    reported after the finish, and then one timer: for itself, 60 s ahead,
    with the payload it was called with. So every timer over the checks of
    a task is that one, and the valve check is never armed again. *)
Theorem recheck_timer_is_the_only_timer :
  (forall self w data,
      timers (fst (Apps.check_usage self w data))
      = match snd (Apps.check_usage self w data) with
        | inr Apps.Recheck => [(CheckUsage, 60, Some data)]
        | _ => []
        end) /\
  (forall fuel self h t data tm,
      In tm (timers (fst (Apps.run_checks fuel self h t data))) ->
      tm = (CheckUsage, 60, Some data)).
Proof.
  split; [apply check_usage_timers|].
  induction fuel as [|fuel IH]; intros self h t data tm; [intros []|].
  cbn [Apps.run_checks].
  pose proof (check_usage_timers self (world_at h t) data) as Ht.
  pose proof (check_usage_step self (world_at h t) data) as Hstep.
  cbv zeta in Hstep.
  destruct (Apps.check_usage self (world_at h t) data) as [tr [e|b]];
    cbn [fst snd] in Ht, Hstep; cbv beta iota.
  { cbn [fst]. rewrite Ht. intros []. }
  destruct b; cbv beta iota in Hstep.
  - destruct Hstep as (-> & _).
    specialize (IH self h (t + seconds 60) data tm).
    destruct (Apps.run_checks fuel self h (t + seconds 60) data) as [tr' e].
    cbn [fst] in *. rewrite timers_app, Ht. intros [<- | Hin]; [done|].
    by apply IH.
  - destruct Hstep as (-> & _). cbn [fst]. rewrite Ht. intros [].
  - destruct Hstep as (-> & _). cbn [fst]. rewrite Ht. intros [].
  - destruct Hstep as (-> & _). cbn [fst]. rewrite Ht. intros [].
Qed.

Lemma recheck_timer_is_the_only_timer_witness :
  (CheckUsage, 60, Some (task 600 0)) = (CheckUsage, 60, Some (task 600 0)).
Proof.
  destruct recheck_timer_is_the_only_timer as [_ H].
  apply (H 3%nat app0 stalled (seconds 30) (task 600 0)).
  vm_compute. left. reflexivity.
Defined.

(** ** The age of the report *)

(** X15. With a last report and a finish time at hand, the age of the
    report alone decides how [Apps.check_usage] leaves: it re-checks
    exactly when the report is older than the finish, gives up exactly
    when the report is more than 30 minutes younger, and reads the history
    only in between, both ends included. *)
Theorem report_age_decides self w data reported finish_time :
  last_reported w = Some reported ->
  data !! "finish_time" = Some (VTime finish_time) ->
  let run := Apps.check_usage self w data in
  (snd run = inr Apps.Recheck <-> reported < finish_time) /\
  (snd run = inr Apps.TooOldToCheck <-> finish_time + minutes 30 < reported) /\
  (queries (fst run) <> [] ->
   finish_time <= reported <= finish_time + minutes 30).
Proof.
  intros Hrep Hfin. cbv zeta.
  destruct (Z.lt_ge_cases reported finish_time) as [Hlt|Hge].
  { rewrite (check_usage_recheck self w data _ _ Hrep Hfin Hlt).
    unfold sensor_read. cbn [fst snd queries].
    split; [done|]. split; [|done]. split; [discriminate|].
    unfold minutes. lia. }
  destruct (Z.lt_ge_cases (finish_time + minutes 30) reported) as [Hold|Hle].
  { rewrite (check_usage_too_old self w data _ _ Hrep Hfin Hold).
    unfold sensor_read. cbn [fst snd queries].
    split; [|done]. split; [discriminate|lia]. }
  assert (Hother : snd (Apps.check_usage self w data) <> inr Apps.Recheck /\
                   snd (Apps.check_usage self w data) <> inr Apps.TooOldToCheck).
  { destruct (check_usage_cases self w data)
      as [(e & -> & _) | (r & ft & Hrep' & Hfin' & Hcase)]; [done|].
    rewrite Hrep in Hrep'. rewrite Hfin in Hfin'.
    injection Hrep' as <-. injection Hfin' as <-.
    destruct Hcase as [Hlt | [Hold | (Hfresh & dv & duration & delta & Hdv & Hdur & Hd & Hz)]];
      [lia | lia |].
    rewrite (check_usage_evaluates self w data reported finish_time Hrep Hfin
               dv duration delta _ Hfresh Hdv Hdur Hd Hz).
    cbv zeta. by destruct (Qltb _ _). }
  destruct Hother as [H1 H2].
  split; [split; [done|lia]|]. split; [split; [done|lia]|]. lia.
Qed.

Lemma report_age_decides_witness :
  (snd (Apps.check_usage app0
          (world (seconds 2000) (seconds 1800) ["1000.0"; "1120.0"])
          (task 600 0)) = inr Apps.TooOldToCheck
   <-> 0 + minutes 30 < seconds 1800) /\
  (snd (Apps.check_usage app0
          (world (seconds 2000) (seconds 1801) ["1000.0"; "1120.0"])
          (task 600 0)) = inr Apps.TooOldToCheck
   <-> 0 + minutes 30 < seconds 1801).
Proof.
  split.
  - apply (report_age_decides app0
             (world (seconds 2000) (seconds 1800) ["1000.0"; "1120.0"])
             (task 600 0) (seconds 1800) 0 eq_refl eq_refl).
  - apply (report_age_decides app0
             (world (seconds 2000) (seconds 1801) ["1000.0"; "1120.0"])
             (task 600 0) (seconds 1801) 0 eq_refl eq_refl).
Defined.

(** ** The two handlers of the finish event *)

Lemma batch_run_minutes_cases data :
  match durationSeconds data with
  | Some secs => Batch.run_minutes data = ret (Z.quot secs 60)
  | None => exists e, Batch.run_minutes data = ([], inl e)
  end.
Proof.
  destruct (durationSeconds data) as [secs|] eqn:Hd;
    [by apply batch_run_minutes|].
  unfold durationSeconds in Hd. unfold Batch.run_minutes, getitem.
  destruct (data !! "run") as [[| | | | |run]|]; py_step; try by eexists.
  unfold getitem.
  destruct (run !! "duration") as [d|]; py_step; [|by eexists].
  destruct (py_int d) as [tr [e|z]] eqn:E; [|discriminate].
  pose proof (py_int_trace _ _ _ E) as ->. py_step. by eexists.
Qed.

(** X16. [Batch.irrigation_complete] raises on the same payloads as the
    handler of [Apps]: those without [entity_id] and, for the configured
    program, those whose run has no duration [int] can convert. When it
    raises it has armed no check; the event of another program is dropped
    without an effect. *)
Theorem batch_handler_raises_on_the_same_payloads self et data :
  ((exists e, snd (Batch.irrigation_complete self et data) = inl e) <->
   well_formed (Batch.sequence_entity_id self) data = false) /\
  (forall e, snd (Batch.irrigation_complete self et data) = inl e ->
             fst (Batch.irrigation_complete self et data) = []) /\
  (names_program (Batch.sequence_entity_id self) data = false ->
   data !! "entity_id" <> None ->
   Batch.irrigation_complete self et data = ([], inr tt)).
Proof.
  unfold Batch.irrigation_complete, getitem, well_formed, names_program.
  destruct (data !! "entity_id") as [eid|]; py_step.
  2:{ split; [split; [done|by eexists]|]. split; [done|]. done. }
  destruct (eq_str eid _).
  2:{ split; [split; [intros [e [= ]]|discriminate]|]. split; [discriminate|].
      done. }
  pose proof (batch_run_minutes_cases data) as Hm.
  destruct (durationSeconds data) as [secs|].
  - rewrite Hm. py_step.
    destruct (_ <? _); cbn [fst snd];
      (split; [split; [intros [e [= ]]|discriminate]|]);
      (split; [discriminate|discriminate]).
  - destruct Hm as [e ->]. py_step.
    split; [split; [done|by eexists]|]. split; [done|discriminate].
Qed.

Lemma batch_handler_raises_on_the_same_payloads_witness :
  Batch.irrigation_complete batch0 finish_event
    (event "binary_sensor.other" (VStr "soon"))
  = ([], inr tt).
Proof.
  apply (batch_handler_raises_on_the_same_payloads batch0 finish_event
           (event "binary_sensor.other" (VStr "soon")));
    [reflexivity | discriminate].
Defined.

(** X17. On a run of a non-negative number of seconds, and with the same
    program and the same [min_duration], the two handlers decide alike:
    one arms its check exactly when the other does. *)
Theorem handlers_filter_alike (a : Apps.IrrigationCheck)
    (b : Batch.IrrigationCheck) w et data secs :
  Apps.sequence_entity_id a = Batch.sequence_entity_id b ->
  Apps.min_duration a = Batch.min_duration b ->
  programId data = Some (Apps.sequence_entity_id a) ->
  durationSeconds data = Some secs ->
  0 <= secs ->
  armed CheckUsage (fst (Apps.irrigation_complete a w et data)) <> None <->
  armed CheckUsage (fst (Batch.irrigation_complete b et data)) <> None.
Proof.
  intros Hsid Hmin Hid Hd Hpos.
  rewrite (apps_irrigation_complete_matching a w et data secs Hid Hd).
  rewrite Hsid in Hid.
  rewrite (batch_irrigation_complete_matching b et data secs Hid Hd).
  pose proof (armed_valve_timer a) as Ha.
  destruct (Z.lt_ge_cases secs (60 * Apps.min_duration a)) as [Hlt|Hge].
  - assert (H1 : Qltb (inject_Z secs / 60) (inject_Z (Apps.min_duration a))
                 = true) by by apply minutes_lt_iff.
    assert (H2 : (Z.quot secs 60 <? Batch.min_duration b) = true).
    { apply whole_minutes_lt_iff; [done|]. by rewrite <- Hmin. }
    rewrite H1, H2. cbn [fst]. rewrite armed_app_nil by done. done.
  - assert (H1 : Qltb (inject_Z secs / 60) (inject_Z (Apps.min_duration a))
                 = false).
    { destruct (Qltb _ _) eqn:E; [|done]. apply minutes_lt_iff in E. lia. }
    assert (H2 : (Z.quot secs 60 <? Batch.min_duration b) = false).
    { destruct (_ <? _) eqn:E; [|done].
      apply whole_minutes_lt_iff in E; [|done]. rewrite <- Hmin in E. lia. }
    rewrite H1, H2. cbn [fst]. rewrite armed_app_nil by done. done.
Qed.

Lemma handlers_filter_alike_witness :
  armed CheckUsage
    (fst (Apps.irrigation_complete app0 (world 0 0 []) finish_event
            (event c1_s1 (VInt 179)))) <> None <->
  armed CheckUsage
    (fst (Batch.irrigation_complete batch0 finish_event
            (event c1_s1 (VInt 179)))) <> None.
Proof.
  apply (handlers_filter_alike app0 batch0 (world 0 0 []) finish_event
           (event c1_s1 (VInt 179)) 179); try reflexivity. lia.
Defined.

(** Below zero the two filters part: [Batch] rounds toward zero. *)
Example handlers_part_below_zero :
  let a := {| Apps.sequence_entity_id := c1_s1;
              Apps.sprinkler_entity_id := None;
              Apps.min_duration := 0;
              Apps.min_expected_lpm := 10;
              Apps.notify_ok_action := None;
              Apps.notify_alert_action := None |} in
  let b := {| Batch.sequence_entity_id := c1_s1;
              Batch.min_duration := 0;
              Batch.delay_minutes := 10;
              Batch.min_expected_lpm := 10;
              Batch.alert_notify_action := None |} in
  armed CheckUsage
    (fst (Apps.irrigation_complete a (world 0 0 []) finish_event
            (event c1_s1 (VInt (-30))))) = None /\
  armed CheckUsage
    (fst (Batch.irrigation_complete b finish_event
            (event c1_s1 (VInt (-30)))))
  = Some (600, Some (event c1_s1 (VInt (-30)))).
Proof. cbv zeta. split; vm_compute; reflexivity. Qed.
